(** * seismic-canvas: the XYZAxis legend widget ([xyz_axis.py])

    A shallow embedding of the class [XYZAxis] and of the part of vispy's
    transform library its method [_update_axis] calls, followed by the
    properties of the alignment transform and of the drag interaction.

    Numbers.  Python's floats and numpy's arrays of floats are read as real
    numbers: every statement below is a statement about the exact
    arithmetic the code spells out, not about rounding.  The element type
    of an array, integer or float, is kept beside its entries: numpy's
    in-place addition depends on it. *)

From Stdlib Require Import Reals Lra List Bool.
Import ListNotations.

Open Scope R_scope.

(** ** The vispy transform library, as used by the widget *)

Module Vispy.

(** A row of a 4x4 array, and a homogeneous coordinate vector. *)
Record Vec4 := V4 { v0 : R; v1 : R; v2 : R; v3 : R }.

(** A 4x4 array, stored by rows as numpy does. *)
Record Mat4 := M4 { r0 : Vec4; r1 : Vec4; r2 : Vec4; r3 : Vec4 }.

Definition vdot (u v : Vec4) : R :=
  v0 u * v0 v + v1 u * v1 v + v2 u * v2 v + v3 u * v3 v.

Definition c0 (B : Mat4) : Vec4 := V4 (v0 (r0 B)) (v0 (r1 B)) (v0 (r2 B)) (v0 (r3 B)).
Definition c1 (B : Mat4) : Vec4 := V4 (v1 (r0 B)) (v1 (r1 B)) (v1 (r2 B)) (v1 (r3 B)).
Definition c2 (B : Mat4) : Vec4 := V4 (v2 (r0 B)) (v2 (r1 B)) (v2 (r2 B)) (v2 (r3 B)).
Definition c3 (B : Mat4) : Vec4 := V4 (v3 (r0 B)) (v3 (r1 B)) (v3 (r2 B)) (v3 (r3 B)).

(** [np.dot(u, B)] for a row vector [u]. *)
Definition vmat (u : Vec4) (B : Mat4) : Vec4 :=
  V4 (vdot u (c0 B)) (vdot u (c1 B)) (vdot u (c2 B)) (vdot u (c3 B)).

(** [np.dot(A, B)] for two 4x4 arrays. *)
Definition dot (A B : Mat4) : Mat4 :=
  M4 (vmat (r0 A) B) (vmat (r1 A) B) (vmat (r2 A) B) (vmat (r3 A) B).

(** [M.T]. *)
Definition transpose (B : Mat4) : Mat4 := M4 (c0 B) (c1 B) (c2 B) (c3 B).

(** [np.eye(4)]. *)
Definition eye4 : Mat4 :=
  M4 (V4 1 0 0 0) (V4 0 1 0 0) (V4 0 0 1 0) (V4 0 0 0 1).

Definition vec3 : Type := R * R * R.

(** Modelled from the spec: vispy is an external library and its module
    [vispy.util.transforms] is not among the sources.  The spec's
    "scale", "rotation about an axis by an angle in degrees" and
    "translate" are the library's 4x4 matrices for row vectors (a point
    [v] is mapped to [np.dot(v, M)]): [scale(s)] is
    [np.diag(s ++ (1,))]. *)
Definition scale (s : vec3) : Mat4 :=
  let '(sx, sy, sz) := s in
  M4 (V4 sx 0 0 0) (V4 0 sy 0 0) (V4 0 0 sz 0) (V4 0 0 0 1).

(** Modelled from the spec: [translate(offset)] of the absent
    [vispy.util.transforms], the identity with [offset] in its last
    row. *)
Definition translate (o : vec3) : Mat4 :=
  let '(x, y, z) := o in
  M4 (V4 1 0 0 0) (V4 0 1 0 0) (V4 0 0 1 0) (V4 x y z 1).

(** [np.radians]. *)
Definition radians (deg : R) : R := deg * PI / 180.

(** [np.linalg.norm] of a 3-vector. *)
Definition norm (a : vec3) : R :=
  let '(x, y, z) := a in sqrt (x * x + y * y + z * z).

(** Modelled from the spec: [rotate(angle, axis)] of the absent
    [vispy.util.transforms]: the axis is normalised, the angle is in
    degrees, and the array written out by rows is transposed at the
    end. *)
Definition rotate (angle : R) (axis : vec3) : Mat4 :=
  let angle := radians angle in
  let '(ax, ay, az) := axis in
  let n := norm axis in
  let x := ax / n in
  let y := ay / n in
  let z := az / n in
  let c := cos angle in
  let s := sin angle in
  let cx := (1 - c) * x in
  let cy := (1 - c) * y in
  let cz := (1 - c) * z in
  transpose
    (M4 (V4 (cx * x + c) (cy * x - z * s) (cz * x + y * s) 0)
        (V4 (cx * y + z * s) (cy * y + c) (cz * y - x * s) 0)
        (V4 (cx * z - y * s) (cy * z + x * s) (cz * z + c) 0)
        (V4 0 0 0 1)).

(** [as_vec4(pos, default=(0, 0, 0, 0))[0, :3]] on a 2D position: the
    missing depth is filled with the default. *)
Definition as_vec3 (p : R * R) : vec3 := (fst p, snd p, 0).

(** Modelled from the spec: the class [MatrixTransform] of the absent
    [vispy.visuals.transforms].  The object holds one 4x4 array; every
    method multiplies it on the right, so that the new operation is
    applied after the ones already there. *)
Record MatrixTransform := MkMatrixTransform { matrix : Mat4 }.

(** [MatrixTransform()]. *)
Definition new : MatrixTransform := MkMatrixTransform eye4.

(** [tr.reset()]. *)
Definition reset (tr : MatrixTransform) : MatrixTransform :=
  MkMatrixTransform eye4.

(** [tr.scale(s)]. *)
Definition scale_ (tr : MatrixTransform) (s : vec3) : MatrixTransform :=
  MkMatrixTransform (dot (matrix tr) (scale s)).

(** [tr.rotate(angle, axis)]. *)
Definition rotate_ (tr : MatrixTransform) (angle : R) (axis : vec3)
  : MatrixTransform :=
  MkMatrixTransform (dot (matrix tr) (rotate angle axis)).

(** [tr.translate(pos)] with a 2D position. *)
Definition translate_ (tr : MatrixTransform) (pos : R * R)
  : MatrixTransform :=
  MkMatrixTransform (dot (matrix tr) (translate (as_vec3 pos))).

(** [tr.map(v)]: a point as a row vector times the array. *)
Definition map (tr : MatrixTransform) (v : Vec4) : Vec4 :=
  vmat v (matrix tr).

(** The upper-left 3x3 block: the linear part of an affine array. *)
Record Vec3 := V3 { w0 : R; w1 : R; w2 : R }.
Record Mat3 := M3 { l0 : Vec3; l1 : Vec3; l2 : Vec3 }.

Definition head3 (u : Vec4) : Vec3 := V3 (v0 u) (v1 u) (v2 u).

Definition linear (A : Mat4) : Mat3 :=
  M3 (head3 (r0 A)) (head3 (r1 A)) (head3 (r2 A)).

Definition vmat3 (u : Vec3) (B : Mat3) : Vec3 :=
  V3 (w0 u * w0 (l0 B) + w1 u * w0 (l1 B) + w2 u * w0 (l2 B))
     (w0 u * w1 (l0 B) + w1 u * w1 (l1 B) + w2 u * w1 (l2 B))
     (w0 u * w2 (l0 B) + w1 u * w2 (l1 B) + w2 u * w2 (l2 B)).

Definition dot3 (A B : Mat3) : Mat3 :=
  M3 (vmat3 (l0 A) B) (vmat3 (l1 A) B) (vmat3 (l2 A) B).

Definition scale3 (s : vec3) : Mat3 :=
  let '(sx, sy, sz) := s in M3 (V3 sx 0 0) (V3 0 sy 0) (V3 0 0 sz).

End Vispy.


(** ** Python values and control *)

(** A 2D screen position: the two entries of a tuple or of an array. *)
Definition vec2 : Type := R * R.

Definition vadd (a b : vec2) : vec2 := (fst a + fst b, snd a + snd b).
Definition vsub (a b : vec2) : vec2 := (fst a - fst b, snd a - snd b).

(** The element type of a numpy array: pointer positions and locations
    are arrays of integers or of floats. *)
Inductive dtype : Type :=
| Int64
| Float64.

(** The element type of the result of an arithmetic operation between
    two arrays: integer only when both are. *)
Definition promote (a b : dtype) : dtype :=
  match a, b with
  | Int64, Int64 => Int64
  | _, _ => Float64
  end.

(** The object bound to [self.loc]: the tuple given to the constructor
    (its default is [(60, 60)]), or the numpy array that the first
    [self.loc += self.offset] leaves there.  A tuple is immutable, an
    array is updated in place.  The element type of a tuple is the one
    numpy gives the array it makes of it: integer for a tuple of Python
    integers, float as soon as one entry is a float. *)
Inductive seq2 : Type :=
| PyTuple (d : dtype) (v : vec2)
| NdArray (d : dtype) (v : vec2).

Definition elems (o : seq2) : vec2 :=
  match o with PyTuple _ v => v | NdArray _ v => v end.

Definition dtype_of (o : seq2) : dtype :=
  match o with PyTuple d _ => d | NdArray d _ => d end.

(** The value of [self.anchor] once set: a list of two numpy scalars. *)
Inductive pylist : Type :=
| PyList (d : dtype) (v : vec2).

Definition items (l : pylist) : vec2 :=
  match l with PyList _ v => v end.

Definition list_dtype (l : pylist) : dtype :=
  match l with PyList d _ => d end.

(** The value of [self.offset]: the integer [0], or an array. *)
Inductive offset_val : Type :=
| OffZero
| OffArray (d : dtype) (v : vec2).

(** What [self.highlight.center] refers to.  The assignments
    [center=self.loc] and [self.highlight.center = self.loc] store the
    object of [self.loc] itself, so an in-place update of that array is
    seen through the highlight as well; [self.highlight.center =
    new_center] stores an array of its own. *)
Inductive center_ref : Type :=
| CenterIsLoc
| CenterOwn (o : seq2).

(** The exceptions met: Python's [TypeError], and numpy's
    [UFuncTypeError] (a kind of [TypeError]) for an in-place operation
    whose result cannot be cast to the element type of its target. *)
Inductive exn : Type :=
| TypeError
| UFuncTypeError.

(** A method call returns, or raises with the object as it was left. *)
Inductive outcome (A : Type) : Type :=
| Returned (s : A)
| Raised (e : exn) (s : A).

Arguments Returned {A} s.
Arguments Raised {A} e s.

Definition bind {A : Type} (o : outcome A) (k : A -> outcome A) : outcome A :=
  match o with
  | Returned s => k s
  | Raised e s => Raised e s
  end.

Notation "m >>= k" := (bind m k) (at level 50, left associativity).

Definition final {A : Type} (o : outcome A) : A :=
  match o with Returned s => s | Raised _ s => s end.

(** ** The widget *)

Definition rgba : Type := R * R * R * R.

(** [(1, 1, 0, 0.5)]: transparent yellow. *)
Definition transparent_yellow : rgba := (1, 1, 0, 5 / 10).

(** [(1, 1, 0, 1.0)]: solid yellow. *)
Definition solid_yellow : rgba := (1, 1, 0, 1).

(** The turntable camera of the parent, read only. *)
Record Camera := MkCamera { azimuth : R; elevation : R }.

(** The parent node (a view box) with its camera. *)
Record ViewBox := MkViewBox { camera : Camera }.

(** [scene.visuals.Ellipse]: the selection highlight. *)
Record Ellipse := MkEllipse {
  center : center_ref;
  radius : R;
  color : rgba;
  ellipse_visible : bool
}.

(** A mouse event: [pos] is an array, with its element type. *)
Record MouseEvent := MkMouseEvent {
  pos : vec2;
  pos_dtype : dtype;
  button : nat;
  is_dragging : bool
}.

Record XYZAxis := MkXYZAxis {
  parent : option ViewBox;
  interactive : bool;
  visible : bool;
  loc : seq2;
  size : R;
  seismic_coord_system : bool;
  highlight : Ellipse;
  anchor : option pylist;
  offset : offset_val;
  transform : Vispy.MatrixTransform
}.

(** Field assignments. *)
Definition with_transform (s : XYZAxis) (tr : Vispy.MatrixTransform) : XYZAxis :=
  MkXYZAxis (parent s) (interactive s) (visible s) (loc s) (size s)
    (seismic_coord_system s) (highlight s) (anchor s) (offset s) tr.

Definition with_anchor (s : XYZAxis) (a : option pylist) : XYZAxis :=
  MkXYZAxis (parent s) (interactive s) (visible s) (loc s) (size s)
    (seismic_coord_system s) (highlight s) a (offset s) (transform s).

Definition with_offset (s : XYZAxis) (o : offset_val) : XYZAxis :=
  MkXYZAxis (parent s) (interactive s) (visible s) (loc s) (size s)
    (seismic_coord_system s) (highlight s) (anchor s) o (transform s).

Definition with_highlight (s : XYZAxis) (h : Ellipse) : XYZAxis :=
  MkXYZAxis (parent s) (interactive s) (visible s) (loc s) (size s)
    (seismic_coord_system s) h (anchor s) (offset s) (transform s).

Definition with_loc (s : XYZAxis) (l : seq2) : XYZAxis :=
  MkXYZAxis (parent s) (interactive s) (visible s) l (size s)
    (seismic_coord_system s) (highlight s) (anchor s) (offset s) (transform s).

Definition with_center (h : Ellipse) (c : center_ref) : Ellipse :=
  MkEllipse c (radius h) (color h) (ellipse_visible h).

Definition with_color (h : Ellipse) (c : rgba) : Ellipse :=
  MkEllipse (center h) (radius h) c (ellipse_visible h).

(** The position read through [self.highlight.center]. *)
Definition highlight_center (s : XYZAxis) : vec2 :=
  match center (highlight s) with
  | CenterIsLoc => elems (loc s)
  | CenterOwn o => elems o
  end.

(** [_update_axis]: nothing without a parent; otherwise the transform
    object is reset and the six operations are applied to it one after
    the other.  The closing [self.update()] only asks for a redraw. *)
Definition _update_axis (s : XYZAxis) : outcome XYZAxis :=
  match parent s with
  | None => Returned s
  | Some p =>
      let tr := transform s in
      let tr := Vispy.reset tr in
      let tr := if seismic_coord_system s
                then Vispy.scale_ tr (1, -1, -1) else tr in
      let tr := Vispy.rotate_ tr 90 (1, 0, 0) in
      let tr := Vispy.rotate_ tr (azimuth (camera p)) (0, 1, 0) in
      let tr := Vispy.rotate_ tr (elevation (camera p)) (1, 0, 0) in
      let tr := Vispy.scale_ tr (size s, size s, 1 / 1000) in
      let tr := Vispy.translate_ tr (elems (loc s)) in
      Returned (with_transform s tr)
  end.

(** [__init__]. *)
Definition __init__ (loc : seq2) (size : R) (visible : bool)
    (seismic_coord_system : bool) (parent : option ViewBox) : outcome XYZAxis :=
  _update_axis
    (MkXYZAxis parent true visible loc size seismic_coord_system
       (MkEllipse CenterIsLoc size transparent_yellow false)
       None OffZero Vispy.new).

(** [on_mouse_move]. *)
Definition on_mouse_move (event : MouseEvent) (s : XYZAxis) : outcome XYZAxis :=
  if Nat.eqb (button event) 1 && is_dragging event
  then _update_axis s
  else Returned s.

(** [set_anchor]: the click position relative to [self.loc], as a list
    of the entries of the difference of two arrays. *)
Definition set_anchor (mouse_press_event : MouseEvent) (s : XYZAxis)
  : outcome XYZAxis :=
  let click_pos := pos mouse_press_event in
  Returned
    (with_anchor s
       (Some (PyList (promote (pos_dtype mouse_press_event) (dtype_of (loc s)))
                (vsub click_pos (elems (loc s)))))).

(** [drag_visual_node].  With [self.anchor] still [None] the first
    subtraction raises, before anything is assigned. *)
Definition drag_visual_node (mouse_move_event : MouseEvent) (s : XYZAxis)
  : outcome XYZAxis :=
  match anchor s with
  | None => Raised TypeError s
  | Some (PyList anchor_dtype a) =>
      let new_center := vsub (pos mouse_move_event) a in
      let center_dtype := promote (pos_dtype mouse_move_event) anchor_dtype in
      let s := with_offset s
                 (OffArray (promote center_dtype (dtype_of (loc s)))
                    (vsub new_center (elems (loc s)))) in
      let s := with_highlight s
                 (with_center (highlight s)
                    (CenterOwn (NdArray center_dtype new_center))) in
      let s := with_highlight s (with_color (highlight s) solid_yellow) in
      Returned s
  end.

(** [reset_highlight]. *)
Definition reset_highlight (s : XYZAxis) : outcome XYZAxis :=
  let s := with_highlight s (with_center (highlight s) CenterIsLoc) in
  let s := with_highlight s (with_color (highlight s) transparent_yellow) in
  Returned s.

(** [self.loc += self.offset].  A tuple has no addition of its own: with
    an array on the right numpy's addition answers and [self.loc] is
    bound to a fresh array of the promoted element type, the highlight
    keeping the old tuple if it referred to it; with the integer [0] on
    the right the concatenation of tuples raises.  An array is updated in
    place and keeps its element type: [0] is added to each entry, an
    array is added entry by entry, and adding an array of floats to an
    array of integers raises, the sum not being castable to integers,
    before anything is written. *)
Definition iadd_loc (s : XYZAxis) : outcome XYZAxis :=
  match loc s, offset s with
  | PyTuple d p, OffZero => Raised TypeError s
  | PyTuple d p, OffArray od o =>
      let h := match center (highlight s) with
               | CenterIsLoc =>
                   with_center (highlight s) (CenterOwn (PyTuple d p))
               | CenterOwn _ => highlight s
               end in
      Returned (with_loc (with_highlight s h) (NdArray (promote d od) (vadd p o)))
  | NdArray d p, OffZero => Returned (with_loc s (NdArray d (vadd p (0, 0))))
  | NdArray Int64 p, OffArray Float64 o => Raised UFuncTypeError s
  | NdArray d p, OffArray _ o => Returned (with_loc s (NdArray d (vadd p o)))
  end.

(** [update_location]. *)
Definition update_location (s : XYZAxis) : outcome XYZAxis :=
  iadd_loc s >>= fun s =>
  _update_axis s >>= fun s =>
  let s := with_anchor s None in
  let s := with_offset s OffZero in
  Returned s.


(** ** The statements' vocabulary *)

(** The steps of a list applied one after the other, from the identity. *)
Definition compose_in_order (steps : list Vispy.Mat4) : Vispy.Mat4 :=
  fold_left Vispy.dot steps Vispy.eye4.

(** The alignment transform as the specification words it: reset to the
    identity; pre-scale by (1, -1, -1) in the inverted convention only;
    rotate by 90 degrees about X; rotate by the azimuth about Y; rotate by
    the elevation about X; scale by (display_size, display_size, 0.001);
    translate by the anchor position. *)
Definition alignment_transform (azimuth elevation display_size : R)
    (anchor_position : vec2) (inverted : bool) : Vispy.Mat4 :=
  compose_in_order
    ((if inverted then [Vispy.scale (1, -1, -1)] else [])
       ++ [Vispy.rotate 90 (1, 0, 0);
           Vispy.rotate azimuth (0, 1, 0);
           Vispy.rotate elevation (1, 0, 0);
           Vispy.scale (display_size, display_size, 1 / 1000);
           Vispy.translate (fst anchor_position, snd anchor_position, 0)]).

Definition with_seismic (s : XYZAxis) (b : bool) : XYZAxis :=
  MkXYZAxis (parent s) (interactive s) (visible s) (loc s) (size s)
    b (highlight s) (anchor s) (offset s) (transform s).

(** The pointer moves of a drag, delivered in order. *)
Definition drag_moves (moves : list MouseEvent) (s : XYZAxis) : outcome XYZAxis :=
  fold_left (fun o ev => o >>= drag_visual_node ev) moves (Returned s).

(** A whole drag: press, moves, release. *)
Definition drag_session (press : MouseEvent) (moves : list MouseEvent)
    (s : XYZAxis) : outcome XYZAxis :=
  set_anchor press s >>= drag_moves moves >>= update_location.

(** No drag session: the anchor is cleared and the offset is reset. *)
Definition idle (s : XYZAxis) : Prop :=
  anchor s = None /\ offset s = OffZero.

(** A screen position outside the highlight: farther from [self.loc]
    than the highlight's radius [self.size]. *)
Definition outside_highlight (s : XYZAxis) (c : vec2) : Prop :=
  let d := vsub c (elems (loc s)) in
  fst d * fst d + snd d * snd d > size s * size s.

(** A widget as the constructor's defaults make it, in a view whose
    camera is at azimuth 30 and elevation 30. *)
Definition default_view : ViewBox := MkViewBox (MkCamera 30 30).

Definition default_axis : XYZAxis :=
  final (__init__ (PyTuple Int64 (60, 60)) 50 true true (Some default_view)).

(** The same without any parent. *)
Definition detached_axis : XYZAxis :=
  final (__init__ (PyTuple Int64 (60, 60)) 50 true true None).

(** A left-button drag event at an integer pixel position, and one at a
    position reported in floats. *)
Definition left_at (x y : R) : MouseEvent := MkMouseEvent (x, y) Int64 1 true.

Definition float_at (x y : R) : MouseEvent :=
  MkMouseEvent (x, y) Float64 1 true.

(** The element type of the offset left pending by a drag pressed at
    [press] and last moved to [last_move], on a widget located at [l]. *)
Definition session_dtype (l : seq2) (press last_move : MouseEvent) : dtype :=
  promote
    (promote (pos_dtype last_move) (promote (pos_dtype press) (dtype_of l)))
    (dtype_of l).

(** The element type of the location after an offset of element type
    [od] has been added: promoted in the fresh array made from a tuple,
    kept by an array. *)
Definition committed_dtype (l : seq2) (od : dtype) : dtype :=
  match l with
  | PyTuple d _ => promote d od
  | NdArray d _ => d
  end.

(** The location a drag pressed at [press] and last moved to [last_move]
    leaves when its release returns. *)
Definition loc_after (l : seq2) (press last_move : MouseEvent) : seq2 :=
  NdArray (committed_dtype l (session_dtype l press last_move))
    (vadd (elems l) (vsub (pos last_move) (pos press))).

(** Whether numpy can add an offset of element type [od] to the location
    [l]: always to a tuple, which gives a fresh array, and to an array
    of floats; to an array of integers only when the offset is one. *)
Definition castable (l : seq2) (od : dtype) : bool :=
  match l, od with
  | NdArray Int64 _, Float64 => false
  | _, _ => true
  end.

(** The default widget seen from the front: azimuth 0, elevation 0. *)
Definition front_view : ViewBox := MkViewBox (MkCamera 0 0).

Definition front_axis : XYZAxis :=
  final (__init__ (PyTuple Int64 (60, 60)) 50 true true (Some front_view)).

(** The default widget with other contents in its transform. *)
Definition stale_axis : XYZAxis :=
  with_transform default_axis
    (Vispy.MkMatrixTransform (Vispy.scale (2, 2, 2))).

(** The default widget pressed at (10, 10), then dragged to (40, 40),
    then released. *)
Definition pressed_axis : XYZAxis :=
  final (set_anchor (left_at 10 10) default_axis).

Definition dragging_axis : XYZAxis :=
  final (drag_visual_node (left_at 40 40) pressed_axis).

Definition committed_axis : XYZAxis :=
  final (update_location dragging_axis).

(** The committed widget, now at (90, 90) in an array of integers,
    pressed again at (100, 100) and dragged to a position reported in
    floats, (110.5, 120.0). *)
Definition pressed_again_axis : XYZAxis :=
  final (set_anchor (left_at 100 100) committed_axis).

Definition float_dragging_axis : XYZAxis :=
  final (drag_visual_node (float_at (221 / 2) 120) pressed_again_axis).

(** The committed widget, now at (90, 90) in an array, pressed at
    (100, 100), dragged to (110, 120), and cancelled. *)
Definition cancelled_axis : XYZAxis :=
  final (set_anchor (left_at 100 100) committed_axis
           >>= drag_visual_node (left_at 110 120)
           >>= reset_highlight).

(** A method call made by the host on the widget. *)
Inductive call : Type :=
| OnMouseMove (event : MouseEvent)
| SetAnchor (mouse_press_event : MouseEvent)
| DragVisualNode (mouse_move_event : MouseEvent)
| ResetHighlight
| UpdateLocation.

Definition perform (c : call) (s : XYZAxis) : outcome XYZAxis :=
  match c with
  | OnMouseMove event => on_mouse_move event s
  | SetAnchor mouse_press_event => set_anchor mouse_press_event s
  | DragVisualNode mouse_move_event => drag_visual_node mouse_move_event s
  | ResetHighlight => reset_highlight s
  | UpdateLocation => update_location s
  end.

(** Calls made one after the other; an exception ends the sequence. *)
Definition run (calls : list call) (s : XYZAxis) : outcome XYZAxis :=
  fold_left (fun o c => o >>= perform c) calls (Returned s).

(** The transform is the one a recompute would store now: the alignment
    for the parent's camera, the size and the location, or the identity
    of a widget that never had a parent. *)
Definition aligned (s : XYZAxis) : Prop :=
  match parent s with
  | None => transform s = Vispy.new
  | Some vb =>
      transform s =
      Vispy.MkMatrixTransform
        (alignment_transform (azimuth (camera vb)) (elevation (camera vb))
           (size s) (elems (loc s)) (seismic_coord_system s))
  end.

(** Agreement on the fields that no method assigns. *)
Definition same_setup (s0 s : XYZAxis) : Prop :=
  parent s = parent s0
  /\ interactive s = interactive s0
  /\ visible s = visible s0
  /\ size s = size s0
  /\ seismic_coord_system s = seismic_coord_system s0
  /\ radius (highlight s) = radius (highlight s0)
  /\ ellipse_visible (highlight s) = ellipse_visible (highlight s0).

(** The widget under another parent (the camera has moved, or the
    widget was attached elsewhere). *)
Definition with_parent (s : XYZAxis) (p : option ViewBox) : XYZAxis :=
  MkXYZAxis p (interactive s) (visible s) (loc s) (size s)
    (seismic_coord_system s) (highlight s) (anchor s) (offset s) (transform s).

(** A point of the legend's local space, in homogeneous coordinates. *)
Definition point (x y z : R) : Vispy.Vec4 := Vispy.V4 x y z 1.

(** Where the recomputed transform draws a local point. *)
Definition drawn_at (s : XYZAxis) (x y z : R) : Vispy.Vec4 :=
  Vispy.map (transform (final (_update_axis s))) (point x y z).

(** ** Matrix algebra *)

Lemma dot_assoc (A B C : Vispy.Mat4) :
  Vispy.dot (Vispy.dot A B) C = Vispy.dot A (Vispy.dot B C).
Proof.
  destruct A as [[] [] [] []], B as [[] [] [] []], C as [[] [] [] []].
  unfold Vispy.dot, Vispy.vmat, Vispy.vdot; simpl.
  f_equal; f_equal; ring.
Qed.

Lemma dot_eye_l (A : Vispy.Mat4) : Vispy.dot Vispy.eye4 A = A.
Proof.
  destruct A as [[] [] [] []].
  unfold Vispy.dot, Vispy.vmat, Vispy.vdot; simpl.
  f_equal; f_equal; ring.
Qed.

Lemma dot_eye_r (A : Vispy.Mat4) : Vispy.dot A Vispy.eye4 = A.
Proof.
  destruct A as [[] [] [] []].
  unfold Vispy.dot, Vispy.vmat, Vispy.vdot; simpl.
  f_equal; f_equal; ring.
Qed.

Lemma norm_x : Vispy.norm (1, 0, 0) = 1.
Proof.
  unfold Vispy.norm.
  replace (1 * 1 + 0 * 0 + 0 * 0) with 1 by ring.
  apply sqrt_1.
Qed.

Lemma norm_y : Vispy.norm (0, 1, 0) = 1.
Proof.
  unfold Vispy.norm.
  replace (0 * 0 + 1 * 1 + 0 * 0) with 1 by ring.
  apply sqrt_1.
Qed.

(** A rotation about X, entry by entry. *)
Lemma rotate_x (a : R) :
  Vispy.rotate a (1, 0, 0) =
  let c := cos (Vispy.radians a) in
  let s := sin (Vispy.radians a) in
  Vispy.M4 (Vispy.V4 1 0 0 0) (Vispy.V4 0 c s 0)
           (Vispy.V4 0 (- s) c 0) (Vispy.V4 0 0 0 1).
Proof.
  unfold Vispy.rotate. rewrite norm_x.
  unfold Vispy.transpose, Vispy.c0, Vispy.c1, Vispy.c2, Vispy.c3; simpl.
  f_equal; f_equal; field.
Qed.

(** A rotation about Y, entry by entry. *)
Lemma rotate_y (a : R) :
  Vispy.rotate a (0, 1, 0) =
  let c := cos (Vispy.radians a) in
  let s := sin (Vispy.radians a) in
  Vispy.M4 (Vispy.V4 c 0 (- s) 0) (Vispy.V4 0 1 0 0)
           (Vispy.V4 s 0 c 0) (Vispy.V4 0 0 0 1).
Proof.
  unfold Vispy.rotate. rewrite norm_y.
  unfold Vispy.transpose, Vispy.c0, Vispy.c1, Vispy.c2, Vispy.c3; simpl.
  f_equal; f_equal; field.
Qed.

(** The fixed quarter turn about X. *)
Lemma rotate_x_90 :
  Vispy.rotate 90 (1, 0, 0) =
  Vispy.M4 (Vispy.V4 1 0 0 0) (Vispy.V4 0 0 1 0)
           (Vispy.V4 0 (-1) 0 0) (Vispy.V4 0 0 0 1).
Proof.
  rewrite rotate_x. unfold Vispy.radians.
  replace (90 * PI / 180) with (PI / 2) by field.
  rewrite cos_PI2, sin_PI2. reflexivity.
Qed.

(** The last row of an array is where the origin is sent. *)
Lemma map_origin (tr : Vispy.MatrixTransform) :
  Vispy.map tr (Vispy.V4 0 0 0 1) = Vispy.r3 (Vispy.matrix tr).
Proof.
  destruct tr as [[[] [] [] []]].
  unfold Vispy.map, Vispy.vmat, Vispy.vdot; simpl.
  f_equal; ring.
Qed.

Lemma last_row_dot (A B : Vispy.Mat4) :
  Vispy.r3 A = Vispy.V4 0 0 0 1 ->
  Vispy.r3 (Vispy.dot A B) = Vispy.r3 B.
Proof.
  intros HA. destruct A as [a0 a1 a2 a3], B as [[] [] [] []].
  simpl in HA; subst a3.
  unfold Vispy.dot, Vispy.vmat, Vispy.vdot; simpl.
  f_equal; ring.
Qed.

Lemma last_row_rotate (a : R) (axis : Vispy.vec3) :
  Vispy.r3 (Vispy.rotate a axis) = Vispy.V4 0 0 0 1.
Proof. destruct axis as [[ax ay] az]. reflexivity. Qed.

Lemma last_row_scale (s : Vispy.vec3) :
  Vispy.r3 (Vispy.scale s) = Vispy.V4 0 0 0 1.
Proof. destruct s as [[sx sy] sz]. reflexivity. Qed.

(** A scale on the left acts on the linear part alone. *)
Lemma linear_scale_dot (s : Vispy.vec3) (B : Vispy.Mat4) :
  Vispy.linear (Vispy.dot (Vispy.scale s) B) =
  Vispy.dot3 (Vispy.scale3 s) (Vispy.linear B).
Proof.
  destruct s as [[sx sy] sz], B as [[] [] [] []].
  unfold Vispy.linear, Vispy.dot3, Vispy.vmat3, Vispy.dot, Vispy.vmat,
    Vispy.vdot, Vispy.head3; simpl.
  f_equal; f_equal; ring.
Qed.

(** The inverted convention is the standard transform with the scale
    (1, -1, -1) in front. *)
Lemma alignment_transform_inverted (a e sz : R) (p : vec2) :
  alignment_transform a e sz p true =
  Vispy.dot (Vispy.scale (1, -1, -1)) (alignment_transform a e sz p false).
Proof.
  unfold alignment_transform, compose_in_order; cbn [fold_left app].
  rewrite !dot_eye_l, !dot_assoc. reflexivity.
Qed.

Lemma alignment_transform_last_row (a e sz : R) (p : vec2) (b : bool) :
  Vispy.r3 (alignment_transform a e sz p b) = Vispy.V4 (fst p) (snd p) 0 1.
Proof.
  unfold alignment_transform, compose_in_order.
  assert (Hstep : forall A B, Vispy.r3 A = Vispy.V4 0 0 0 1 ->
            Vispy.r3 B = Vispy.V4 0 0 0 1 ->
            Vispy.r3 (Vispy.dot A B) = Vispy.V4 0 0 0 1).
  { intros A B HA HB. rewrite last_row_dot; assumption. }
  destruct b; cbn [fold_left app];
    (rewrite last_row_dot; [ reflexivity | ]);
    repeat (apply Hstep;
            [ | first [ apply last_row_rotate | apply last_row_scale ] ]);
    reflexivity.
Qed.

(** ** The recompute *)

(** The recompute always returns and assigns the transform only. *)
Lemma update_axis_returns (s : XYZAxis) :
  exists tr, _update_axis s = Returned (with_transform s tr).
Proof.
  unfold _update_axis. destruct (parent s).
  - eexists. reflexivity.
  - exists (transform s). destruct s; reflexivity.
Qed.

Lemma update_axis_detached_noop_aux (s : XYZAxis) :
  parent s = None -> _update_axis s = Returned s.
Proof.
  intros Hp. unfold _update_axis. rewrite Hp. reflexivity.
Qed.

Lemma update_axis_attached (s : XYZAxis) (vb : ViewBox) :
  parent s = Some vb ->
  _update_axis s =
  Returned (with_transform s
    (Vispy.MkMatrixTransform
       (alignment_transform (azimuth (camera vb)) (elevation (camera vb))
          (size s) (elems (loc s)) (seismic_coord_system s)))).
Proof.
  intros Hp. unfold _update_axis. rewrite Hp.
  unfold alignment_transform, compose_in_order.
  destruct (seismic_coord_system s); reflexivity.
Qed.

(** C1.  With a parent camera attached, the recompute stores exactly the
    matrix composed in this order from the identity: the pre-scale by
    (1, -1, -1) if and only if the seismic convention is set, the quarter
    turn about X, the rotation by the azimuth about Y, the rotation by the
    elevation about X, the scale by (size, size, 0.001) and the
    translation by the location; that is, the product of these matrices
    from left to right, with the identity in place of the pre-scale when
    the convention is off. *)
Theorem update_axis_composes_in_order (s : XYZAxis) (vb : ViewBox) :
  parent s = Some vb ->
  _update_axis s =
  Returned (with_transform s
    (Vispy.MkMatrixTransform
       (alignment_transform (azimuth (camera vb)) (elevation (camera vb))
          (size s) (elems (loc s)) (seismic_coord_system s))))
  /\ alignment_transform (azimuth (camera vb)) (elevation (camera vb))
       (size s) (elems (loc s)) (seismic_coord_system s) =
     Vispy.dot
       (if seismic_coord_system s then Vispy.scale (1, -1, -1) else Vispy.eye4)
       (Vispy.dot (Vispy.rotate 90 (1, 0, 0))
          (Vispy.dot (Vispy.rotate (azimuth (camera vb)) (0, 1, 0))
             (Vispy.dot (Vispy.rotate (elevation (camera vb)) (1, 0, 0))
                (Vispy.dot (Vispy.scale (size s, size s, 1 / 1000))
                   (Vispy.translate
                      (fst (elems (loc s)), snd (elems (loc s)), 0)))))).
Proof.
  intros Hp. split.
  - apply update_axis_attached, Hp.
  - unfold alignment_transform, compose_in_order.
    destruct (seismic_coord_system s); cbn [fold_left app];
      rewrite !dot_eye_l, !dot_assoc; reflexivity.
Qed.

Lemma update_axis_composes_in_order_default :
  parent default_axis = Some default_view
  /\ _update_axis default_axis =
     Returned (with_transform default_axis
       (Vispy.MkMatrixTransform
          (alignment_transform 30 30 50 (60, 60) true))).
Proof.
  split.
  - reflexivity.
  - exact (proj1 (update_axis_composes_in_order default_axis default_view
                    eq_refl)).
Defined.

(** C7.  Without a parent the recompute returns at once: no error, and
    the transform and every other field are as before. *)
Theorem update_axis_detached_noop (s : XYZAxis) :
  parent s = None -> _update_axis s = Returned s.
Proof.
  intros Hp. unfold _update_axis. rewrite Hp. reflexivity.
Qed.

Lemma update_axis_detached_noop_default :
  parent detached_axis = None
  /\ _update_axis detached_axis = Returned detached_axis
  /\ transform detached_axis = Vispy.new.
Proof.
  split; [ reflexivity | split ].
  - exact (update_axis_detached_noop detached_axis eq_refl).
  - reflexivity.
Defined.

(** C8.  The linear part of the transform computed in the seismic
    convention is the linear part of the one computed in the standard
    convention with scale(1, -1, -1) multiplied in front; and at azimuth
    0, elevation 0 and size 50 the origin is sent to the location, in
    either convention. *)
Theorem seismic_convention_prescales (s : XYZAxis) (vb : ViewBox) :
  parent s = Some vb ->
  Vispy.linear
    (Vispy.matrix (transform (final (_update_axis (with_seismic s true))))) =
  Vispy.dot3 (Vispy.scale3 (1, -1, -1))
    (Vispy.linear
       (Vispy.matrix (transform (final (_update_axis (with_seismic s false))))))
  /\ (azimuth (camera vb) = 0 -> elevation (camera vb) = 0 -> size s = 50 ->
      forall b : bool,
        Vispy.map (transform (final (_update_axis (with_seismic s b))))
          (Vispy.V4 0 0 0 1) =
        Vispy.V4 (fst (elems (loc s))) (snd (elems (loc s))) 0 1).
Proof.
  intros Hp. split.
  - rewrite (update_axis_attached (with_seismic s true) vb Hp).
    rewrite (update_axis_attached (with_seismic s false) vb Hp).
    cbn [final transform with_transform Vispy.matrix with_seismic
         seismic_coord_system size loc].
    rewrite alignment_transform_inverted. apply linear_scale_dot.
  - intros _ _ _ b.
    rewrite (update_axis_attached (with_seismic s b) vb Hp).
    cbn [final transform with_transform with_seismic
         seismic_coord_system size loc].
    rewrite map_origin. cbn [Vispy.matrix].
    apply alignment_transform_last_row.
Qed.

(** C9.  The recompute is a function of the camera angles, the size, the
    location and the convention alone: two widgets that agree on them get
    the same matrix whatever their transforms held before, and a second
    recompute changes nothing. *)
Theorem update_axis_deterministic (s1 s2 : XYZAxis) (vb1 vb2 : ViewBox) :
  parent s1 = Some vb1 ->
  parent s2 = Some vb2 ->
  azimuth (camera vb1) = azimuth (camera vb2) ->
  elevation (camera vb1) = elevation (camera vb2) ->
  size s1 = size s2 ->
  elems (loc s1) = elems (loc s2) ->
  seismic_coord_system s1 = seismic_coord_system s2 ->
  exists tr,
    _update_axis s1 = Returned (with_transform s1 tr)
    /\ _update_axis s2 = Returned (with_transform s2 tr)
    /\ _update_axis (with_transform s1 tr) = Returned (with_transform s1 tr).
Proof.
  intros H1 H2 Ha He Hs Hl Hc.
  eexists. split; [ apply (update_axis_attached s1 vb1 H1) | split ].
  - rewrite (update_axis_attached s2 vb2 H2).
    rewrite Ha, He, Hs, Hl, Hc. reflexivity.
  - apply (update_axis_attached (with_transform s1 _) vb1 H1).
Qed.

Lemma seismic_convention_prescales_front :
  parent front_axis = Some front_view
  /\ Vispy.map (transform (final (_update_axis (with_seismic front_axis true))))
       (Vispy.V4 0 0 0 1) = Vispy.V4 60 60 0 1
  /\ Vispy.map (transform (final (_update_axis (with_seismic front_axis false))))
       (Vispy.V4 0 0 0 1) = Vispy.V4 60 60 0 1.
Proof.
  split; [ reflexivity | split ].
  - exact (proj2 (seismic_convention_prescales front_axis front_view eq_refl)
             eq_refl eq_refl eq_refl true).
  - exact (proj2 (seismic_convention_prescales front_axis front_view eq_refl)
             eq_refl eq_refl eq_refl false).
Defined.

Lemma update_axis_deterministic_stale :
  transform stale_axis <> transform default_axis
  /\ exists tr,
       _update_axis default_axis = Returned (with_transform default_axis tr)
       /\ _update_axis stale_axis = Returned (with_transform stale_axis tr)
       /\ _update_axis (with_transform default_axis tr) =
          Returned (with_transform default_axis tr).
Proof.
  split.
  - intros H.
    apply (f_equal (fun tr => Vispy.v0 (Vispy.r3 (Vispy.matrix tr)))) in H.
    change (Vispy.matrix (transform default_axis))
      with (alignment_transform 30 30 50 (60, 60) true) in H.
    rewrite alignment_transform_last_row in H.
    cbn in H. lra.
  - exact (update_axis_deterministic default_axis stale_axis
             default_view default_view
             eq_refl eq_refl eq_refl eq_refl eq_refl eq_refl eq_refl).
Defined.

(** ** The drag interaction *)

(** Equations between concrete positions: componentwise, by linear
    arithmetic. *)
Ltac vec2_arith :=
  cbn; unfold vadd, vsub; cbn [fst snd];
  repeat first [ apply (f_equal (@Some pylist)) | apply (f_equal (PyList _))
               | apply (f_equal (OffArray _))
               | apply (f_equal2 (@pair R R)) ];
  lra.

Lemma vadd_vsub_cancel (p c : vec2) : vadd p (vsub c p) = c.
Proof. destruct p, c; unfold vadd, vsub; simpl; f_equal; ring. Qed.

Lemma vadd_zero (p : vec2) : vadd p (0, 0) = p.
Proof. destruct p; unfold vadd; simpl; f_equal; ring. Qed.

(** The displacement committed by a drag pressed at [c] and released
    at [q], starting from the location [p]. *)
Lemma committed_displacement (p c q : vec2) :
  vadd p (vsub (vsub q (vsub c p)) p) = vadd p (vsub q c).
Proof. destruct p, c, q; unfold vadd, vsub; simpl; f_equal; ring. Qed.

Lemma pending_displacement (p c q : vec2) :
  vsub (vsub q (vsub c p)) p = vsub q c.
Proof. destruct p, c, q; unfold vsub; simpl; f_equal; ring. Qed.

(** A pointer move in an open session, field by field. *)
Lemma drag_visual_node_active (ev : MouseEvent) (s : XYZAxis) (a : pylist) :
  anchor s = Some a ->
  drag_visual_node ev s =
  Returned
    (MkXYZAxis (parent s) (interactive s) (visible s) (loc s) (size s)
       (seismic_coord_system s)
       (MkEllipse
          (CenterOwn (NdArray (promote (pos_dtype ev) (list_dtype a))
                        (vsub (pos ev) (items a))))
          (radius (highlight s)) solid_yellow (ellipse_visible (highlight s)))
       (Some a)
       (OffArray
          (promote (promote (pos_dtype ev) (list_dtype a)) (dtype_of (loc s)))
          (vsub (vsub (pos ev) (items a)) (elems (loc s))))
       (transform s)).
Proof.
  intros Ha. unfold drag_visual_node. rewrite Ha. destruct a as [d a].
  unfold with_highlight, with_offset, with_center, with_color; simpl.
  rewrite Ha. reflexivity.
Qed.

(** Any number of moves keeps the session open on the same anchor and
    the location where it was. *)
Lemma drag_moves_active (moves : list MouseEvent) :
  forall (s : XYZAxis) (a : pylist),
    anchor s = Some a ->
    exists s',
      drag_moves moves s = Returned s'
      /\ anchor s' = Some a /\ loc s' = loc s /\ parent s' = parent s
      /\ size s' = size s
      /\ seismic_coord_system s' = seismic_coord_system s.
Proof.
  induction moves as [ | ev moves IH ]; intros s a Ha.
  - exists s. repeat split; assumption.
  - unfold drag_moves. cbn [fold_left bind].
    rewrite (drag_visual_node_active ev s a Ha).
    match goal with
    | |- context [ Returned ?s1 ] =>
        destruct (IH s1 a eq_refl) as (s' & Hrun & Hanchor & Hrest)
    end.
    exists s'. split; [ exact Hrun | split; [ exact Hanchor | exact Hrest ] ].
Qed.

(** Adding the integer [0] to an array in place. *)
Lemma iadd_loc_zero (s : XYZAxis) (d : dtype) (p : vec2) :
  loc s = NdArray d p ->
  offset s = OffZero ->
  iadd_loc s = Returned (with_loc s (NdArray d (vadd p (0, 0)))).
Proof.
  intros Hl Ho. unfold iadd_loc. rewrite Hl, Ho. destruct d; reflexivity.
Qed.

(** A release with an array in [self.offset] that numpy can add to the
    location. *)
Lemma update_location_pending (s : XYZAxis) (od : dtype) (o : vec2) :
  offset s = OffArray od o ->
  castable (loc s) od = true ->
  exists s',
    update_location s = Returned s'
    /\ loc s' = NdArray (committed_dtype (loc s) od) (vadd (elems (loc s)) o)
    /\ anchor s' = None /\ offset s' = OffZero.
Proof.
  intros Ho Hc. unfold update_location, iadd_loc. rewrite Ho.
  destruct (loc s) as [d p | [ | ] p], od; try discriminate Hc; cbn [bind];
    match goal with
    | |- context [ _update_axis ?s1 ] =>
        destruct (update_axis_returns s1) as (tr & Htr); rewrite Htr
    end;
    cbn [bind]; eexists; (split; [ reflexivity | ]);
    repeat split.
Qed.

(** A release with an array of floats in [self.offset] and an array of
    integers in [self.loc]: the in-place addition raises and the widget
    is left as it was. *)
Lemma update_location_refused (s : XYZAxis) (od : dtype) (o : vec2) :
  offset s = OffArray od o ->
  castable (loc s) od = false ->
  update_location s = Raised UFuncTypeError s.
Proof.
  intros Ho Hc. unfold update_location, iadd_loc. rewrite Ho.
  destruct (loc s) as [d p | [ | ] p], od; try discriminate Hc.
  reflexivity.
Qed.

(** A whole drag session whose offset can be added to the location
    returns, at the location displaced by what the pointer travelled
    between the press and the last move. *)
Lemma drag_session_returns (s : XYZAxis) (press : MouseEvent)
    (moves : list MouseEvent) (last_move : MouseEvent) :
  castable (loc s) (session_dtype (loc s) press last_move) = true ->
  exists s',
    drag_session press (moves ++ [last_move]) s = Returned s'
    /\ (exists v,
          loc s' =
          NdArray
            (committed_dtype (loc s) (session_dtype (loc s) press last_move))
            v)
    /\ elems (loc s') =
       vadd (elems (loc s)) (vsub (pos last_move) (pos press))
    /\ anchor s' = None
    /\ offset s' = OffZero.
Proof.
  intros Hc. unfold drag_session, set_anchor. cbn [bind].
  set (s1 := with_anchor s _).
  destruct (drag_moves_active moves s1 _ eq_refl)
    as (s2 & Hmoves & Hanchor & Hloc & _).
  unfold drag_moves in *. rewrite fold_left_app, Hmoves. cbn [fold_left bind].
  rewrite (drag_visual_node_active last_move s2 _ Hanchor). cbn [bind].
  match goal with
  | |- context [ update_location ?s3 ] =>
      destruct (update_location_pending s3 _ _ eq_refl)
        as (s' & Hrun & Hloc' & Ha' & Ho')
  end.
  { cbn [loc list_dtype]. rewrite Hloc. exact Hc. }
  exists s'. split; [ exact Hrun | ].
  cbn [loc list_dtype items] in Hloc'. rewrite Hloc in Hloc'.
  subst s1. cbn [loc with_anchor] in Hloc'.
  split; [ eexists; exact Hloc' | ].
  split; [ | split; assumption ].
  rewrite Hloc'. cbn [elems]. apply committed_displacement.
Qed.

(** A whole drag session whose offset cannot be added to the location
    ends with the release raising: the location is where it was, and the
    anchor and the offset of the session are still set. *)
Lemma drag_session_refused (s : XYZAxis) (press : MouseEvent)
    (moves : list MouseEvent) (last_move : MouseEvent) :
  castable (loc s) (session_dtype (loc s) press last_move) = false ->
  exists s',
    drag_session press (moves ++ [last_move]) s = Raised UFuncTypeError s'
    /\ loc s' = loc s
    /\ anchor s' =
       Some (PyList (promote (pos_dtype press) (dtype_of (loc s)))
               (vsub (pos press) (elems (loc s))))
    /\ offset s' =
       OffArray (session_dtype (loc s) press last_move)
         (vsub (vsub (pos last_move) (vsub (pos press) (elems (loc s))))
            (elems (loc s))).
Proof.
  intros Hc. unfold drag_session, set_anchor. cbn [bind].
  set (s1 := with_anchor s _).
  destruct (drag_moves_active moves s1 _ eq_refl)
    as (s2 & Hmoves & Hanchor & Hloc & _).
  unfold drag_moves in *. rewrite fold_left_app, Hmoves. cbn [fold_left bind].
  rewrite (drag_visual_node_active last_move s2 _ Hanchor). cbn [bind].
  match goal with
  | |- context [ update_location ?s3 ] =>
      rewrite (update_location_refused s3 _ _ eq_refl)
  end.
  - eexists. split; [ reflexivity | ].
    cbn [loc anchor offset list_dtype items]. rewrite Hloc.
    subst s1. cbn [loc with_anchor]. repeat split.
  - cbn [loc list_dtype]. rewrite Hloc. exact Hc.
Qed.

(** C3.  A pointer move processed in an open drag session assigns the
    highlight's centre, the highlight's colour and the pending offset,
    and nothing else: the location, the size and the transform are as
    before, and so are the remaining fields. *)
Theorem drag_visual_node_frame (ev : MouseEvent) (s : XYZAxis) (a : pylist) :
  anchor s = Some a ->
  exists s',
    drag_visual_node ev s = Returned s'
    /\ loc s' = loc s
    /\ size s' = size s
    /\ transform s' = transform s
    /\ anchor s' = anchor s
    /\ parent s' = parent s
    /\ interactive s' = interactive s
    /\ visible s' = visible s
    /\ seismic_coord_system s' = seismic_coord_system s
    /\ radius (highlight s') = radius (highlight s)
    /\ ellipse_visible (highlight s') = ellipse_visible (highlight s).
Proof.
  intros Ha. eexists. split.
  - apply (drag_visual_node_active ev s a Ha).
  - cbn. rewrite Ha. repeat split.
Qed.

Lemma drag_visual_node_frame_pressed :
  anchor pressed_axis = Some (PyList Int64 (vsub (10, 10) (60, 60)))
  /\ exists s',
       drag_visual_node (left_at 40 40) pressed_axis = Returned s'
       /\ loc s' = loc pressed_axis
       /\ size s' = size pressed_axis
       /\ transform s' = transform pressed_axis
       /\ anchor s' = anchor pressed_axis
       /\ parent s' = parent pressed_axis
       /\ interactive s' = interactive pressed_axis
       /\ visible s' = visible pressed_axis
       /\ seismic_coord_system s' = seismic_coord_system pressed_axis
       /\ radius (highlight s') = radius (highlight pressed_axis)
       /\ ellipse_visible (highlight s') =
          ellipse_visible (highlight pressed_axis).
Proof.
  split.
  - reflexivity.
  - exact (drag_visual_node_frame (left_at 40 40) pressed_axis
             (PyList Int64 (vsub (10, 10) (60, 60))) eq_refl).
Defined.

(** C10, the code at the failing input.  The widget committed at
    (90, 90) holds its location in an array of integers; pressed at
    (100, 100) and moved to (110.5, 120.0), a position in floats, it
    shows the highlight at (100.5, 110), the location plus the pending
    offset (10.5, 20); but the release raises, the sum not being castable
    to integers, and the location stays at (90, 90), not at the centre
    shown. *)
Theorem float_move_feedback_is_not_committed :
  (exists v, loc pressed_again_axis = NdArray Int64 v)
  /\ elems (loc pressed_again_axis) = (90, 90)
  /\ drag_visual_node (float_at (221 / 2) 120) pressed_again_axis =
     Returned float_dragging_axis
  /\ highlight_center float_dragging_axis = (201 / 2, 110)
  /\ offset float_dragging_axis = OffArray Float64 (21 / 2, 20)
  /\ highlight_center float_dragging_axis =
     vadd (elems (loc float_dragging_axis)) (21 / 2, 20)
  /\ update_location float_dragging_axis =
     Raised UFuncTypeError float_dragging_axis
  /\ elems (loc float_dragging_axis) = (90, 90).
Proof.
  split; [ eexists; reflexivity | ].
  split; [ vec2_arith | ].
  split; [ reflexivity | ].
  split; [ vec2_arith | ].
  split; [ vec2_arith | ].
  split; [ vec2_arith | ].
  split; [ reflexivity | vec2_arith ].
Qed.

(** C2, the code at the failing input.  On the default widget the drag
    of the specification's example -- press at (10, 10), move to
    (40, 40), release -- does as the claim says: anchor (-50, -50),
    highlight at (90, 90), location (90, 90), session cleared; the
    location is now an array of integers.  A second drag, pressed at
    (100, 100) and moved to (110.5, 120.0), a position in floats, ends
    with the release raising: the location stays at (90, 90) instead of
    moving to (100.5, 110), and the anchor and the offset are still
    set. *)
Theorem second_drag_with_float_move_raises :
  drag_session (left_at 10 10) ([] ++ [left_at 40 40]) default_axis =
  Returned committed_axis
  /\ anchor pressed_axis = Some (PyList Int64 (-50, -50))
  /\ highlight_center dragging_axis = (90, 90)
  /\ (exists v, loc committed_axis = NdArray Int64 v)
  /\ elems (loc committed_axis) = (90, 90)
  /\ anchor committed_axis = None
  /\ offset committed_axis = OffZero
  /\ drag_session (left_at 100 100) ([] ++ [float_at (221 / 2) 120])
       committed_axis =
     Raised UFuncTypeError float_dragging_axis
  /\ elems (loc float_dragging_axis) = (90, 90)
  /\ vadd (90, 90) (vsub (221 / 2, 120) (100, 100)) = (201 / 2, 110)
  /\ anchor float_dragging_axis = Some (PyList Int64 (10, 10))
  /\ offset float_dragging_axis = OffArray Float64 (21 / 2, 20).
Proof.
  split; [ reflexivity | ].
  split; [ vec2_arith | ].
  split; [ vec2_arith | ].
  split; [ eexists; reflexivity | ].
  split; [ vec2_arith | ].
  split; [ reflexivity | ].
  split; [ reflexivity | ].
  split; [ reflexivity | ].
  split; [ vec2_arith | ].
  split; [ vec2_arith | ].
  split; vec2_arith.
Qed.

(** C4, as stated, fails: the cancel path does not clear the session.
    With the default widget pressed at (10, 10) and dragged to (40, 40),
    [reset_highlight] leaves the anchor (-50, -50) and the pending offset
    (30, 30) in place, and an [update_location] after it commits the
    cancelled drag: the location becomes (90, 90). *)
Lemma reset_highlight_keeps_session :
  anchor dragging_axis = Some (PyList Int64 (vsub (10, 10) (60, 60)))
  /\ elems (loc dragging_axis) = (60, 60)
  /\ anchor (final (reset_highlight dragging_axis)) =
     Some (PyList Int64 (-50, -50))
  /\ offset (final (reset_highlight dragging_axis)) = OffArray Int64 (30, 30)
  /\ exists s',
       update_location (final (reset_highlight dragging_axis)) = Returned s'
       /\ elems (loc s') = (90, 90).
Proof.
  split; [ reflexivity | ].
  split; [ reflexivity | ].
  split; [ vec2_arith | ].
  split; [ vec2_arith | ].
  eexists. split; [ reflexivity | vec2_arith ].
Qed.

(** C4, amended.  Cancelling leaves the location unchanged and puts the
    highlight back on it in the transparent colour; the anchor, the
    pending offset, the size and the transform are left as they were
    (the session fields are not cleared).  The next press and moves
    overwrite them: the anchor and the pending offset are then those of
    the new drag alone, the offset being its own pointer displacement. *)
Theorem reset_highlight_cancels (s : XYZAxis) :
  exists s',
    reset_highlight s = Returned s'
    /\ loc s' = loc s
    /\ highlight_center s' = elems (loc s)
    /\ color (highlight s') = transparent_yellow
    /\ anchor s' = anchor s
    /\ offset s' = offset s
    /\ size s' = size s
    /\ transform s' = transform s
    /\ forall (press : MouseEvent) (moves : list MouseEvent)
              (last_move : MouseEvent),
         exists s'' a d o,
           set_anchor press s' >>= drag_moves (moves ++ [last_move]) =
           Returned s''
           /\ anchor s'' = Some a
           /\ items a = vsub (pos press) (elems (loc s))
           /\ offset s'' = OffArray d o
           /\ o = vsub (pos last_move) (pos press)
           /\ loc s'' = loc s.
Proof.
  eexists. split; [ reflexivity | ].
  repeat (split; [ reflexivity | ]).
  intros press moves last_move.
  unfold set_anchor. cbn [bind].
  match goal with
  | |- context [ drag_moves _ ?s1 ] =>
      destruct (drag_moves_active moves s1 _ eq_refl)
        as (s2 & Hmoves & Hanchor & Hloc & _)
  end.
  unfold drag_moves in *. rewrite fold_left_app, Hmoves. cbn [fold_left bind].
  rewrite (drag_visual_node_active last_move s2 _ Hanchor).
  eexists. eexists. eexists. eexists.
  split; [ reflexivity | ].
  cbn [anchor offset loc items list_dtype].
  split; [ reflexivity | ].
  split; [ reflexivity | ].
  split; [ reflexivity | ].
  rewrite Hloc. cbn [loc with_anchor with_highlight].
  split; [ apply pending_displacement | reflexivity ].
Qed.

(** C5, as stated, fails: a press at (1000, 1000), far outside the circle
    of radius 50 about (60, 60), still sets the anchor. *)
Lemma set_anchor_outside_highlight :
  outside_highlight default_axis (1000, 1000)
  /\ set_anchor (left_at 1000 1000) default_axis =
     Returned
       (with_anchor default_axis
          (Some (PyList Int64 (vsub (1000, 1000) (60, 60)))))
  /\ anchor (final (set_anchor (left_at 1000 1000) default_axis)) =
     Some (PyList Int64 (940, 940)).
Proof.
  split; [ | split ].
  - unfold outside_highlight.
    change (elems (loc default_axis)) with ((60, 60) : vec2).
    change (size default_axis) with 50.
    unfold vsub; cbn [fst snd]. lra.
  - reflexivity.
  - vec2_arith.
Qed.

(** C5, amended.  [set_anchor] makes no hit test: for every press,
    inside the highlight or outside, it returns with the anchor set to
    the click position minus the location, and with nothing else
    changed. *)
Theorem set_anchor_unconditional (ev : MouseEvent) (s : XYZAxis) :
  exists s',
    set_anchor ev s = Returned s'
    /\ anchor s' =
       Some (PyList (promote (pos_dtype ev) (dtype_of (loc s)))
               (vsub (pos ev) (elems (loc s))))
    /\ loc s' = loc s
    /\ offset s' = offset s
    /\ highlight s' = highlight s
    /\ size s' = size s
    /\ transform s' = transform s
    /\ parent s' = parent s
    /\ interactive s' = interactive s
    /\ visible s' = visible s
    /\ seismic_coord_system s' = seismic_coord_system s.
Proof.
  eexists. split; [ reflexivity | ]. repeat split.
Qed.

(** C6, as stated, fails: on the default widget, where no drag session
    is open, a pointer move raises instead of returning. *)
Lemma idle_pointer_move_raises :
  idle default_axis
  /\ drag_visual_node (left_at 40 40) default_axis =
     Raised TypeError default_axis.
Proof.
  split; [ split; reflexivity | reflexivity ].
Qed.

(** C6, amended.  With no drag session open, a pointer move raises a
    TypeError before anything is assigned, so the widget is left as it
    was; a release on a widget whose location is an array returns and
    leaves the location, the highlight and the cleared session fields as
    they were, while the transform is recomputed: kept where there is no
    parent, and set to the alignment for the current camera where there
    is one. *)
Theorem idle_pointer_events (s : XYZAxis) :
  idle s ->
  (forall ev : MouseEvent, drag_visual_node ev s = Raised TypeError s)
  /\ (forall (d : dtype) (p : vec2),
         loc s = NdArray d p ->
         exists s',
           update_location s = Returned s'
           /\ elems (loc s') = p
           /\ dtype_of (loc s') = d
           /\ highlight s' = highlight s
           /\ highlight_center s' = highlight_center s
           /\ idle s'
           /\ size s' = size s
           /\ (parent s = None -> transform s' = transform s)
           /\ (forall vb : ViewBox,
                  parent s = Some vb ->
                  transform s' =
                  Vispy.MkMatrixTransform
                    (alignment_transform (azimuth (camera vb))
                       (elevation (camera vb)) (size s) p
                       (seismic_coord_system s)))).
Proof.
  intros [Ha Ho]. split.
  - intros ev. unfold drag_visual_node. rewrite Ha. reflexivity.
  - intros d p Hl. unfold update_location.
    rewrite (iadd_loc_zero s d p Hl Ho). cbn [bind].
    set (s1 := with_loc s (NdArray d (vadd p (0, 0)))).
    destruct (parent s) as [vb | ] eqn:Hp.
    + rewrite (update_axis_attached s1 vb Hp). cbn [bind].
      eexists. split; [ reflexivity | ].
      subst s1. unfold highlight_center, idle.
      cbn [loc elems dtype_of highlight anchor offset size transform with_loc
           with_anchor with_offset with_transform seismic_coord_system].
      rewrite Hl, vadd_zero. cbn [elems].
      repeat split; try reflexivity.
      * discriminate.
      * intros vb' Hvb. injection Hvb as <-. reflexivity.
    + rewrite (update_axis_detached_noop_aux s1 Hp). cbn [bind].
      eexists. split; [ reflexivity | ].
      subst s1. unfold highlight_center, idle.
      cbn [loc elems dtype_of highlight anchor offset size transform with_loc
           with_anchor with_offset with_transform seismic_coord_system].
      rewrite Hl, vadd_zero. cbn [elems].
      repeat split; try reflexivity.
      discriminate.
Qed.

Lemma idle_pointer_events_committed :
  idle committed_axis
  /\ drag_visual_node (left_at 40 40) committed_axis =
     Raised TypeError committed_axis
  /\ exists s',
       update_location committed_axis = Returned s'
       /\ elems (loc s') = elems (loc committed_axis)
       /\ highlight s' = highlight committed_axis
       /\ idle s'.
Proof.
  pose proof (idle_pointer_events committed_axis (conj eq_refl eq_refl))
    as [Hmove Hup].
  split; [ split; reflexivity | ].
  split; [ apply Hmove | ].
  destruct (Hup _ _ eq_refl) as (s' & Hrun & Hloc & _ & Hh & _ & Hidle & _).
  exists s'. repeat split; try assumption; apply Hidle.
Defined.

(** A release on the default widget, whose location is still the
    constructor's tuple and whose offset is still [0], raises as well. *)
Lemma idle_release_on_tuple_raises :
  idle default_axis
  /\ loc default_axis = PyTuple Int64 (60, 60)
  /\ update_location default_axis = Raised TypeError default_axis.
Proof.
  split; [ split; reflexivity | split; reflexivity ].
Qed.

(** Sharing.  After a cancel the highlight's centre is the object of
    [self.loc]; when that object is an array, a release updates it in
    place and the highlight reads the new position, whereas the tuple of
    a fresh widget stays behind in the highlight. *)
Lemma release_after_cancel_moves_shared_center :
  (exists d p, loc cancelled_axis = NdArray d p)
  /\ center (highlight cancelled_axis) = CenterIsLoc
  /\ highlight_center cancelled_axis = (90, 90)
  /\ elems (loc (final (update_location cancelled_axis))) = (100, 110)
  /\ highlight_center (final (update_location cancelled_axis)) = (100, 110)
  /\ highlight_center
       (final (update_location (final (reset_highlight dragging_axis)))) =
     (60, 60).
Proof.
  split; [ eexists; eexists; reflexivity | ].
  split; [ reflexivity | ].
  split; [ vec2_arith | ].
  split; [ vec2_arith | ].
  split; [ vec2_arith | reflexivity ].
Qed.

(** ** Where the legend is drawn *)

Lemma vmat_dot (u : Vispy.Vec4) (A B : Vispy.Mat4) :
  Vispy.vmat u (Vispy.dot A B) = Vispy.vmat (Vispy.vmat u A) B.
Proof.
  destruct u, A as [[] [] [] []], B as [[] [] [] []].
  unfold Vispy.dot, Vispy.vmat, Vispy.vdot; simpl.
  f_equal; ring.
Qed.

Lemma vmat_eye (u : Vispy.Vec4) : Vispy.vmat u Vispy.eye4 = u.
Proof.
  destruct u. unfold Vispy.vmat, Vispy.vdot, Vispy.eye4; simpl.
  f_equal; ring.
Qed.

Lemma vmat_scale (a b c d sx sy sz : R) :
  Vispy.vmat (Vispy.V4 a b c d) (Vispy.scale (sx, sy, sz)) =
  Vispy.V4 (a * sx) (b * sy) (c * sz) d.
Proof.
  unfold Vispy.vmat, Vispy.vdot, Vispy.scale; simpl.
  f_equal; ring.
Qed.

Lemma vmat_translate (a b c d x y z : R) :
  Vispy.vmat (Vispy.V4 a b c d) (Vispy.translate (x, y, z)) =
  Vispy.V4 (a + d * x) (b + d * y) (c + d * z) d.
Proof.
  unfold Vispy.vmat, Vispy.vdot, Vispy.translate; simpl.
  f_equal; ring.
Qed.

Lemma vmat_rotate_x (a b c d t : R) :
  Vispy.vmat (Vispy.V4 a b c d) (Vispy.rotate t (1, 0, 0)) =
  Vispy.V4 a
    (b * cos (Vispy.radians t) - c * sin (Vispy.radians t))
    (b * sin (Vispy.radians t) + c * cos (Vispy.radians t))
    d.
Proof.
  rewrite rotate_x. unfold Vispy.vmat, Vispy.vdot; simpl.
  f_equal; ring.
Qed.

Lemma vmat_rotate_y (a b c d t : R) :
  Vispy.vmat (Vispy.V4 a b c d) (Vispy.rotate t (0, 1, 0)) =
  Vispy.V4 (a * cos (Vispy.radians t) + c * sin (Vispy.radians t))
    b
    (c * cos (Vispy.radians t) - a * sin (Vispy.radians t))
    d.
Proof.
  rewrite rotate_y. unfold Vispy.vmat, Vispy.vdot; simpl.
  f_equal; ring.
Qed.

(** The standard alignment of a point, coordinate by coordinate: the
    point is taken through the six steps one after the other. *)
Lemma alignment_transform_standard_point (a e sz : R) (p : vec2) (x y z : R) :
  Vispy.vmat (point x y z) (alignment_transform a e sz p false) =
  let ca := cos (Vispy.radians a) in
  let sa := sin (Vispy.radians a) in
  let ce := cos (Vispy.radians e) in
  let se := sin (Vispy.radians e) in
  Vispy.V4 (fst p + sz * (x * ca + y * sa))
           (snd p + sz * (se * (x * sa - y * ca) - z * ce))
           ((- ce * (x * sa - y * ca) - z * se) / 1000)
           1.
Proof.
  assert (H90 : Vispy.radians 90 = PI / 2) by (unfold Vispy.radians; field).
  unfold alignment_transform, compose_in_order; cbn [fold_left app].
  rewrite !vmat_dot, vmat_eye. unfold point.
  rewrite vmat_rotate_x, H90, cos_PI2, sin_PI2.
  rewrite vmat_rotate_y, vmat_rotate_x, vmat_scale, vmat_translate.
  cbv zeta. f_equal; field.
Qed.

Lemma point_prescaled (x y z : R) :
  Vispy.vmat (point x y z) (Vispy.scale (1, -1, -1)) = point x (- y) (- z).
Proof.
  unfold point, Vispy.vmat, Vispy.vdot, Vispy.scale; simpl.
  f_equal; ring.
Qed.

Lemma drawn_at_attached (s : XYZAxis) (vb : ViewBox) (x y z : R) :
  parent s = Some vb ->
  drawn_at s x y z =
  Vispy.vmat (point x y z)
    (alignment_transform (azimuth (camera vb)) (elevation (camera vb))
       (size s) (elems (loc s)) (seismic_coord_system s)).
Proof.
  intros Hp. unfold drawn_at. rewrite (update_axis_attached s vb Hp).
  reflexivity.
Qed.

(** X2.  In the seismic convention a point is drawn where the standard
    convention draws the point with its second and third coordinates
    negated. *)
Theorem drawn_at_seismic_flips (s : XYZAxis) (vb : ViewBox) (x y z : R) :
  parent s = Some vb ->
  drawn_at (with_seismic s true) x y z =
  drawn_at (with_seismic s false) x (- y) (- z).
Proof.
  intros Hp.
  rewrite (drawn_at_attached (with_seismic s true) vb x y z Hp).
  rewrite (drawn_at_attached (with_seismic s false) vb x (- y) (- z) Hp).
  cbn [with_seismic seismic_coord_system size loc].
  rewrite alignment_transform_inverted, vmat_dot, point_prescaled.
  reflexivity.
Qed.

Lemma drawn_at_seismic_flips_default :
  drawn_at (with_seismic default_axis true) 0 1 0 =
  drawn_at (with_seismic default_axis false) 0 (- 1) (- 0).
Proof.
  exact (drawn_at_seismic_flips default_axis default_view 0 1 0 eq_refl).
Defined.

(** The convention only changes which point is aligned. *)
Lemma drawn_at_standard_point (s : XYZAxis) (vb : ViewBox) (x y z : R) :
  parent s = Some vb ->
  drawn_at s x y z =
  Vispy.vmat
    (point x (if seismic_coord_system s then - y else y)
             (if seismic_coord_system s then - z else z))
    (alignment_transform (azimuth (camera vb)) (elevation (camera vb))
       (size s) (elems (loc s)) false).
Proof.
  intros Hp. rewrite (drawn_at_attached s vb x y z Hp).
  destruct (seismic_coord_system s).
  - rewrite alignment_transform_inverted, vmat_dot, point_prescaled.
    reflexivity.
  - reflexivity.
Qed.

(** X1.  The screen position and the depth at which an attached widget draws
    a local point, in closed form: with [ca], [sa] the cosine and sine of
    the azimuth and [ce], [se] those of the elevation (both in degrees),
    and with the second and third coordinates negated first in the
    seismic convention. *)
Theorem drawn_at_closed_form (s : XYZAxis) (vb : ViewBox) (x y z : R) :
  parent s = Some vb ->
  let ca := cos (Vispy.radians (azimuth (camera vb))) in
  let sa := sin (Vispy.radians (azimuth (camera vb))) in
  let ce := cos (Vispy.radians (elevation (camera vb))) in
  let se := sin (Vispy.radians (elevation (camera vb))) in
  let y' := if seismic_coord_system s then - y else y in
  let z' := if seismic_coord_system s then - z else z in
  drawn_at s x y z =
  Vispy.V4 (fst (elems (loc s)) + size s * (x * ca + y' * sa))
           (snd (elems (loc s)) + size s * (se * (x * sa - y' * ca) - z' * ce))
           ((- ce * (x * sa - y' * ca) - z' * se) / 1000)
           1.
Proof.
  intros Hp. cbv zeta.
  rewrite (drawn_at_standard_point s vb x y z Hp).
  apply alignment_transform_standard_point.
Qed.

Lemma drawn_at_closed_form_front :
  drawn_at front_axis 1 0 0 = Vispy.V4 110 60 0 1
  /\ drawn_at front_axis 0 0 1 = Vispy.V4 60 110 0 1.
Proof.
  assert (H0 : Vispy.radians 0 = 0) by (unfold Vispy.radians; field).
  split.
  - rewrite (drawn_at_closed_form front_axis front_view 1 0 0 eq_refl).
    change (azimuth (camera front_view)) with 0.
    change (elevation (camera front_view)) with 0.
    change (seismic_coord_system front_axis) with true.
    change (size front_axis) with 50.
    change (elems (loc front_axis)) with ((60, 60) : vec2).
    cbn [fst snd]. rewrite H0, cos_0, sin_0. f_equal; field.
  - rewrite (drawn_at_closed_form front_axis front_view 0 0 1 eq_refl).
    change (azimuth (camera front_view)) with 0.
    change (elevation (camera front_view)) with 0.
    change (seismic_coord_system front_axis) with true.
    change (size front_axis) with 50.
    change (elems (loc front_axis)) with ((60, 60) : vec2).
    cbn [fst snd]. rewrite H0, cos_0, sin_0. f_equal; field.
Defined.

(** X3.  Whatever the camera angles, the size and the convention, an attached
    widget draws its origin at its location, at depth 0. *)
Theorem drawn_origin_is_loc (s : XYZAxis) (vb : ViewBox) :
  parent s = Some vb ->
  drawn_at s 0 0 0 =
  Vispy.V4 (fst (elems (loc s))) (snd (elems (loc s))) 0 1.
Proof.
  intros Hp. unfold drawn_at, point.
  rewrite map_origin, (update_axis_attached s vb Hp).
  cbn [final transform with_transform Vispy.matrix].
  apply alignment_transform_last_row.
Qed.

Lemma drawn_origin_is_loc_default :
  drawn_at default_axis 0 0 0 = Vispy.V4 60 60 0 1.
Proof.
  exact (drawn_origin_is_loc default_axis default_view eq_refl).
Defined.

(** The three rotations keep lengths: the two screen coordinates and the
    unscaled depth of a rotated point have the squares of the point's
    coordinates as the sum of their squares. *)
Lemma rotated_point_length (ca sa ce se x y z : R) :
  sa * sa + ca * ca = 1 ->
  se * se + ce * ce = 1 ->
  (x * ca + y * sa) * (x * ca + y * sa)
  + (se * (x * sa - y * ca) - z * ce) * (se * (x * sa - y * ca) - z * ce)
  + (- ce * (x * sa - y * ca) - z * se) * (- ce * (x * sa - y * ca) - z * se)
  = x * x + y * y + z * z.
Proof.
  intros Ha He.
  transitivity ((x * x + y * y) * (sa * sa + ca * ca)
                + ((x * sa - y * ca) * (x * sa - y * ca) + z * z)
                  * (se * se + ce * ce)
                - (x * sa - y * ca) * (x * sa - y * ca)).
  - ring.
  - rewrite Ha, He. ring.
Qed.

Lemma sin_cos_unit (t : R) : sin t * sin t + cos t * cos t = 1.
Proof. exact (sin2_cos2 t). Qed.

(** X4.  Every point of the unit ball -- the tips of the three unit arms among
    them -- is drawn within the distance [size] of the location on
    screen: inside the circle the highlight is given at construction. *)
Theorem drawn_inside_highlight_disc (s : XYZAxis) (vb : ViewBox) (x y z : R) :
  parent s = Some vb ->
  x * x + y * y + z * z <= 1 ->
  (Vispy.v0 (drawn_at s x y z) - fst (elems (loc s)))
  * (Vispy.v0 (drawn_at s x y z) - fst (elems (loc s)))
  + (Vispy.v1 (drawn_at s x y z) - snd (elems (loc s)))
    * (Vispy.v1 (drawn_at s x y z) - snd (elems (loc s)))
  <= size s * size s.
Proof.
  intros Hp Hball.
  rewrite (drawn_at_standard_point s vb x y z Hp).
  rewrite alignment_transform_standard_point. cbv zeta.
  set (y' := if seismic_coord_system s then - y else y).
  set (z' := if seismic_coord_system s then - z else z).
  assert (Hy : y' * y' = y * y)
    by (subst y'; destruct (seismic_coord_system s); ring).
  assert (Hz : z' * z' = z * z)
    by (subst z'; destruct (seismic_coord_system s); ring).
  pose proof (rotated_point_length _ _ _ _ x y' z'
                (sin_cos_unit (Vispy.radians (azimuth (camera vb))))
                (sin_cos_unit (Vispy.radians (elevation (camera vb)))))
    as Hlen.
  cbn [Vispy.v0 Vispy.v1].
  set (u := x * cos (Vispy.radians (azimuth (camera vb)))
            + y' * sin (Vispy.radians (azimuth (camera vb)))) in *.
  set (v := sin (Vispy.radians (elevation (camera vb)))
            * (x * sin (Vispy.radians (azimuth (camera vb)))
               - y' * cos (Vispy.radians (azimuth (camera vb))))
            - z' * cos (Vispy.radians (elevation (camera vb)))) in *.
  set (w := - cos (Vispy.radians (elevation (camera vb)))
            * (x * sin (Vispy.radians (azimuth (camera vb)))
               - y' * cos (Vispy.radians (azimuth (camera vb))))
            - z' * sin (Vispy.radians (elevation (camera vb)))) in *.
  assert (Huv : u * u + v * v <= 1) by nra.
  generalize (size s). intros sz.
  replace ((fst (elems (loc s)) + sz * u - fst (elems (loc s)))
           * (fst (elems (loc s)) + sz * u - fst (elems (loc s)))
           + (snd (elems (loc s)) + sz * v - snd (elems (loc s)))
             * (snd (elems (loc s)) + sz * v - snd (elems (loc s))))
    with (sz * sz * (u * u + v * v)) by ring.
  nra.
Qed.

Lemma drawn_inside_highlight_disc_default :
  (Vispy.v0 (drawn_at default_axis 0 0 1) - 60)
  * (Vispy.v0 (drawn_at default_axis 0 0 1) - 60)
  + (Vispy.v1 (drawn_at default_axis 0 0 1) - 60)
    * (Vispy.v1 (drawn_at default_axis 0 0 1) - 60)
  <= 50 * 50.
Proof.
  apply (drawn_inside_highlight_disc default_axis default_view 0 0 1 eq_refl).
  lra.
Defined.

(** X5.  The legend is flat: a point of the unit ball is drawn at a depth of
    at most 0.001 in absolute value, whatever the size. *)
Theorem drawn_depth_is_flat (s : XYZAxis) (vb : ViewBox) (x y z : R) :
  parent s = Some vb ->
  x * x + y * y + z * z <= 1 ->
  Rabs (Vispy.v2 (drawn_at s x y z)) <= 1 / 1000.
Proof.
  intros Hp Hball.
  rewrite (drawn_at_standard_point s vb x y z Hp).
  rewrite alignment_transform_standard_point. cbv zeta.
  set (y' := if seismic_coord_system s then - y else y).
  set (z' := if seismic_coord_system s then - z else z).
  assert (Hy : y' * y' = y * y)
    by (subst y'; destruct (seismic_coord_system s); ring).
  assert (Hz : z' * z' = z * z)
    by (subst z'; destruct (seismic_coord_system s); ring).
  pose proof (rotated_point_length _ _ _ _ x y' z'
                (sin_cos_unit (Vispy.radians (azimuth (camera vb))))
                (sin_cos_unit (Vispy.radians (elevation (camera vb)))))
    as Hlen.
  cbn [Vispy.v2].
  set (u := x * cos (Vispy.radians (azimuth (camera vb)))
            + y' * sin (Vispy.radians (azimuth (camera vb)))) in *.
  set (v := sin (Vispy.radians (elevation (camera vb)))
            * (x * sin (Vispy.radians (azimuth (camera vb)))
               - y' * cos (Vispy.radians (azimuth (camera vb))))
            - z' * cos (Vispy.radians (elevation (camera vb)))) in *.
  set (w := - cos (Vispy.radians (elevation (camera vb)))
            * (x * sin (Vispy.radians (azimuth (camera vb)))
               - y' * cos (Vispy.radians (azimuth (camera vb))))
            - z' * sin (Vispy.radians (elevation (camera vb)))) in *.
  assert (Hw : w * w <= 1) by nra.
  apply Rabs_le. split; nra.
Qed.

Lemma drawn_depth_is_flat_default :
  Rabs (Vispy.v2 (drawn_at default_axis 1 0 0)) <= 1 / 1000.
Proof.
  apply (drawn_depth_is_flat default_axis default_view 1 0 0 eq_refl).
  lra.
Defined.

Lemma rotate_full_turn (a : R) (axis : Vispy.vec3) :
  Vispy.rotate (a + 360) axis = Vispy.rotate a axis.
Proof.
  assert (Hr : Vispy.radians (a + 360) = Vispy.radians a + 2 * PI)
    by (unfold Vispy.radians; field).
  assert (Hc : cos (Vispy.radians (a + 360)) = cos (Vispy.radians a))
    by (rewrite Hr, cos_plus, cos_2PI, sin_2PI; ring).
  assert (Hs : sin (Vispy.radians (a + 360)) = sin (Vispy.radians a))
    by (rewrite Hr, sin_plus, cos_2PI, sin_2PI; ring).
  unfold Vispy.rotate. destruct axis as [[ax ay] az].
  cbv zeta. rewrite Hc, Hs. reflexivity.
Qed.

(** X6.  A camera that has gone a full turn in azimuth, or in elevation, gets
    the same transform from the recompute. *)
Theorem update_axis_full_turn (s : XYZAxis) (vb vb' : ViewBox) :
  (azimuth (camera vb') = azimuth (camera vb) + 360
   /\ elevation (camera vb') = elevation (camera vb))
  \/ (azimuth (camera vb') = azimuth (camera vb)
      /\ elevation (camera vb') = elevation (camera vb) + 360) ->
  transform (final (_update_axis (with_parent s (Some vb')))) =
  transform (final (_update_axis (with_parent s (Some vb)))).
Proof.
  intros H.
  rewrite (update_axis_attached (with_parent s (Some vb')) vb' eq_refl).
  rewrite (update_axis_attached (with_parent s (Some vb)) vb eq_refl).
  cbn [final transform with_transform with_parent size loc
       seismic_coord_system].
  unfold alignment_transform.
  destruct H as [[Ha He] | [Ha He]]; rewrite Ha, He, rotate_full_turn;
    reflexivity.
Qed.

Lemma update_axis_full_turn_default :
  transform
    (final (_update_axis
              (with_parent default_axis (Some (MkViewBox (MkCamera (30 + 360) 30)))))) =
  transform (final (_update_axis (with_parent default_axis (Some default_view)))).
Proof.
  apply (update_axis_full_turn default_axis default_view
           (MkViewBox (MkCamera (30 + 360) 30))).
  left. split; reflexivity.
Defined.

(** ** The remaining methods *)

(** X7.  [on_mouse_move] never raises and assigns nothing but the transform;
    it leaves the transform alone unless the event is a drag with the
    left button on a widget with a parent, and then stores the alignment
    for the parent's camera as it is now. *)
Theorem on_mouse_move_tracks_camera (event : MouseEvent) (s : XYZAxis) :
  exists tr,
    on_mouse_move event s = Returned (with_transform s tr)
    /\ (button event <> 1%nat \/ is_dragging event = false \/ parent s = None ->
        tr = transform s)
    /\ (forall vb : ViewBox,
           button event = 1%nat -> is_dragging event = true ->
           parent s = Some vb ->
           tr = Vispy.MkMatrixTransform
                  (alignment_transform (azimuth (camera vb))
                     (elevation (camera vb)) (size s) (elems (loc s))
                     (seismic_coord_system s))).
Proof.
  unfold on_mouse_move.
  destruct (Nat.eqb (button event) 1) eqn:Hb;
    destruct (is_dragging event) eqn:Hd; cbn [andb].
  - apply Nat.eqb_eq in Hb.
    destruct (parent s) as [vb | ] eqn:Hp.
    + rewrite (update_axis_attached s vb Hp). eexists.
      split; [ reflexivity | split ].
      * intros [Hn | [Hn | Hn]]; [ contradiction | discriminate
                                 | discriminate ].
      * intros vb' _ _ Hvb. injection Hvb as <-. reflexivity.
    + rewrite (update_axis_detached_noop_aux s Hp). exists (transform s).
      split; [ destruct s; reflexivity | split ].
      * reflexivity.
      * intros vb' _ _ Hvb. discriminate.
  - exists (transform s). split; [ destruct s; reflexivity | split ].
    + reflexivity.
    + intros vb' _ Hd' _. discriminate.
  - apply Nat.eqb_neq in Hb.
    exists (transform s). split; [ destruct s; reflexivity | split ].
    + reflexivity.
    + intros vb' Hb' _ _. contradiction.
  - apply Nat.eqb_neq in Hb.
    exists (transform s). split; [ destruct s; reflexivity | split ].
    + reflexivity.
    + intros vb' Hb' _ _. contradiction.
Qed.

(** X8.  A release raises in exactly two kinds of state, and then leaves
    the widget as it was: a TypeError when the location is still a tuple
    and the offset is still the integer [0], and numpy's UFuncTypeError
    when the location is an array of integers and the offset an array of
    floats.  In every other state it returns with the anchor cleared,
    the offset reset and the location in an array. *)
Theorem update_location_outcome (s : XYZAxis) :
  match loc s, offset s with
  | PyTuple _ _, OffZero => update_location s = Raised TypeError s
  | NdArray Int64 _, OffArray Float64 _ =>
      update_location s = Raised UFuncTypeError s
  | _, _ =>
      exists s' d p,
        update_location s = Returned s'
        /\ loc s' = NdArray d p
        /\ anchor s' = None
        /\ offset s' = OffZero
  end.
Proof.
  unfold update_location, iadd_loc.
  destruct (loc s) as [d p | [ | ] p], (offset s) as [ | [ | ] o]; cbn [bind];
    try reflexivity;
    match goal with
    | |- context [ _update_axis ?s1 ] =>
        destruct (update_axis_returns s1) as (tr & Htr); rewrite Htr
    end;
    cbn [bind]; eexists; eexists; eexists; (split; [ reflexivity | ]);
    repeat split.
Qed.

(** ** More on drags *)

(** Moves leave everything a later move reads as it was. *)
Lemma drag_moves_frame (moves : list MouseEvent) :
  forall (s : XYZAxis) (a : pylist),
    anchor s = Some a ->
    exists s',
      drag_moves moves s = Returned s'
      /\ anchor s' = Some a /\ loc s' = loc s /\ parent s' = parent s
      /\ interactive s' = interactive s /\ visible s' = visible s
      /\ size s' = size s
      /\ seismic_coord_system s' = seismic_coord_system s
      /\ transform s' = transform s
      /\ radius (highlight s') = radius (highlight s)
      /\ ellipse_visible (highlight s') = ellipse_visible (highlight s).
Proof.
  induction moves as [ | ev moves IH ]; intros s a Ha.
  - exists s. repeat split; assumption.
  - unfold drag_moves. cbn [fold_left bind].
    rewrite (drag_visual_node_active ev s a Ha).
    match goal with
    | |- context [ Returned ?s1 ] =>
        destruct (IH s1 a eq_refl) as (s' & Hrun & Hanchor & Hrest)
    end.
    exists s'. split; [ exact Hrun | split; [ exact Hanchor | exact Hrest ] ].
Qed.

(** X9.  Only the last move of a drag counts: after any moves, the widget is
    in the state the last of them alone would have left. *)
Theorem drag_moves_last_wins (moves : list MouseEvent) (last_move : MouseEvent)
    (s : XYZAxis) (a : pylist) :
  anchor s = Some a ->
  drag_moves (moves ++ [last_move]) s = drag_visual_node last_move s.
Proof.
  intros Ha.
  destruct (drag_moves_frame moves s a Ha)
    as (s' & Hrun & Ha' & Hl & Hp & Hi & Hv & Hs & Hc & Ht & Hr & He).
  unfold drag_moves in *. rewrite fold_left_app, Hrun. cbn [fold_left bind].
  rewrite (drag_visual_node_active last_move s' a Ha').
  rewrite (drag_visual_node_active last_move s a Ha).
  rewrite Hl, Hp, Hi, Hv, Hs, Hc, Ht, Hr, He. reflexivity.
Qed.

Lemma drag_moves_last_wins_pressed :
  drag_moves ([left_at 20 20; left_at 30 35] ++ [left_at 40 40]) pressed_axis =
  drag_visual_node (left_at 40 40) pressed_axis.
Proof.
  exact (drag_moves_last_wins [left_at 20 20; left_at 30 35] (left_at 40 40)
           pressed_axis (PyList Int64 (vsub (10, 10) (60, 60))) eq_refl).
Defined.

(** Whether an offset can be added depends on the kind and the element
    type of the location, not on where it is. *)
Lemma castable_after (s1 : XYZAxis) (l : seq2) (press1 last1 press2 last2 : MouseEvent) :
  (exists v,
     loc s1 = NdArray (committed_dtype l (session_dtype l press1 last1)) v) ->
  castable (loc_after l press1 last1)
    (session_dtype (loc_after l press1 last1) press2 last2) = true ->
  castable (loc s1) (session_dtype (loc s1) press2 last2) = true.
Proof.
  intros [v Hv] H. rewrite Hv. unfold loc_after in H.
  destruct (committed_dtype l (session_dtype l press1 last1)); exact H.
Qed.

(** X10.  Two drag sessions in a row, each with an offset that numpy can
    add to the location it finds, both return and displace the location
    by the sum of their two pointer displacements. *)
Theorem drag_sessions_add (s : XYZAxis)
    (press1 : MouseEvent) (moves1 : list MouseEvent) (last1 : MouseEvent)
    (press2 : MouseEvent) (moves2 : list MouseEvent) (last2 : MouseEvent) :
  castable (loc s) (session_dtype (loc s) press1 last1) = true ->
  castable (loc_after (loc s) press1 last1)
    (session_dtype (loc_after (loc s) press1 last1) press2 last2) = true ->
  exists s',
    drag_session press1 (moves1 ++ [last1]) s
      >>= drag_session press2 (moves2 ++ [last2]) = Returned s'
    /\ elems (loc s') =
       vadd (vadd (elems (loc s)) (vsub (pos last1) (pos press1)))
            (vsub (pos last2) (pos press2))
    /\ anchor s' = None
    /\ offset s' = OffZero.
Proof.
  intros Hc1 Hc2.
  destruct (drag_session_returns s press1 moves1 last1 Hc1)
    as (s1 & Hrun1 & Harr1 & Hloc1 & _).
  destruct (drag_session_returns s1 press2 moves2 last2
              (castable_after s1 (loc s) press1 last1 press2 last2 Harr1 Hc2))
    as (s2 & Hrun2 & _ & Hloc2 & Ha2 & Ho2).
  exists s2. rewrite Hrun1. cbn [bind].
  split; [ exact Hrun2 | ].
  split; [ rewrite Hloc2, Hloc1; reflexivity | split; assumption ].
Qed.

Lemma drag_sessions_add_default :
  exists s',
    drag_session (left_at 10 10) ([] ++ [float_at 40 40]) default_axis
      >>= drag_session (float_at 100 100) ([] ++ [left_at 130 80]) =
    Returned s'
    /\ elems (loc s') =
       vadd (vadd (60, 60) (vsub (40, 40) (10, 10))) (vsub (130, 80) (100, 100))
    /\ anchor s' = None
    /\ offset s' = OffZero.
Proof.
  exact (drag_sessions_add default_axis (left_at 10 10) [] (float_at 40 40)
           (float_at 100 100) [] (left_at 130 80) eq_refl eq_refl).
Defined.

(** X11.  Dragging there and back: when both sessions have an offset
    that numpy can add to the location, a second session that starts
    where the first one ended and ends where the first one started puts
    the location back where it was. *)
Theorem drag_back_restores_loc (s : XYZAxis)
    (press1 : MouseEvent) (moves1 : list MouseEvent) (last1 : MouseEvent)
    (press2 : MouseEvent) (moves2 : list MouseEvent) (last2 : MouseEvent) :
  castable (loc s) (session_dtype (loc s) press1 last1) = true ->
  castable (loc_after (loc s) press1 last1)
    (session_dtype (loc_after (loc s) press1 last1) press2 last2) = true ->
  pos press2 = pos last1 ->
  pos last2 = pos press1 ->
  exists s',
    drag_session press1 (moves1 ++ [last1]) s
      >>= drag_session press2 (moves2 ++ [last2]) = Returned s'
    /\ elems (loc s') = elems (loc s).
Proof.
  intros Hc1 Hc2 H1 H2.
  destruct (drag_session_returns s press1 moves1 last1 Hc1)
    as (s1 & Hrun1 & Harr1 & Hloc1 & _).
  destruct (drag_session_returns s1 press2 moves2 last2
              (castable_after s1 (loc s) press1 last1 press2 last2 Harr1 Hc2))
    as (s2 & Hrun2 & _ & Hloc2 & _).
  exists s2. rewrite Hrun1. cbn [bind].
  split; [ exact Hrun2 | ].
  rewrite Hloc2, Hloc1, H1, H2.
  destruct (elems (loc s)) as [px py], (pos last1) as [qx qy],
    (pos press1) as [cx cy].
  unfold vadd, vsub; cbn [fst snd]. f_equal; ring.
Qed.

Lemma drag_back_restores_loc_default :
  exists s',
    drag_session (left_at 100 50) ([] ++ [left_at 130 80]) default_axis
      >>= drag_session (left_at 130 80) ([left_at 0 0] ++ [left_at 100 50]) =
    Returned s'
    /\ elems (loc s') = elems (loc default_axis).
Proof.
  exact (drag_back_restores_loc default_axis (left_at 100 50) []
           (left_at 130 80) (left_at 130 80) [left_at 0 0] (left_at 100 50)
           eq_refl eq_refl eq_refl eq_refl).
Defined.

(** X12.  A release does not touch the highlight of a session with moves:
    after a whole drag session whose offset numpy can add to the
    location, the highlight is centred on the new location and is still
    in the solid colour of the drag. *)
Theorem drag_session_leaves_highlight_solid (s : XYZAxis) (press : MouseEvent)
    (moves : list MouseEvent) (last_move : MouseEvent) :
  castable (loc s) (session_dtype (loc s) press last_move) = true ->
  exists s',
    drag_session press (moves ++ [last_move]) s = Returned s'
    /\ highlight_center s' = elems (loc s')
    /\ color (highlight s') = solid_yellow
    /\ radius (highlight s') = radius (highlight s)
    /\ ellipse_visible (highlight s') = ellipse_visible (highlight s).
Proof.
  intros Hc. unfold drag_session, set_anchor. cbn [bind].
  set (s1 := with_anchor s _).
  destruct (drag_moves_frame moves s1 _ eq_refl)
    as (s2 & Hrun & Ha2 & Hl2 & _ & _ & _ & _ & _ & _ & Hr2 & He2).
  unfold drag_moves in *. rewrite fold_left_app, Hrun. cbn [fold_left bind].
  rewrite (drag_visual_node_active last_move s2 _ Ha2). cbn [bind].
  unfold update_location, iadd_loc.
  cbn [loc offset highlight center with_highlight with_loc list_dtype items].
  rewrite Hl2, Hr2, He2. subst s1. cbn [loc with_anchor highlight].
  unfold session_dtype in Hc.
  destruct (loc s) as [d p | [ | ] p], (pos_dtype last_move),
    (pos_dtype press);
    try discriminate Hc; cbn [promote dtype_of bind];
    match goal with
    | |- context [ _update_axis ?s2 ] =>
        destruct (update_axis_returns s2) as (tr & Htr); rewrite Htr
    end;
    cbn [bind]; eexists; (split; [ reflexivity | ]);
    unfold highlight_center;
    cbn [highlight center loc elems color radius ellipse_visible
         with_anchor with_offset with_transform with_loc with_highlight];
    (split; [ symmetry; apply vadd_vsub_cancel | repeat split ]).
Qed.

Lemma drag_session_leaves_highlight_solid_default :
  exists s',
    drag_session (left_at 10 10) ([left_at 20 20] ++ [left_at 40 40])
      default_axis = Returned s'
    /\ highlight_center s' = elems (loc s')
    /\ color (highlight s') = solid_yellow
    /\ radius (highlight s') = radius (highlight default_axis)
    /\ ellipse_visible (highlight s') = ellipse_visible (highlight default_axis).
Proof.
  exact (drag_session_leaves_highlight_solid default_axis (left_at 10 10)
           [left_at 20 20] (left_at 40 40) eq_refl).
Defined.

(** ** Any sequence of calls *)

Lemma run_raised (calls : list call) (e : exn) (s : XYZAxis) :
  fold_left (fun o c => o >>= perform c) calls (Raised e s) = Raised e s.
Proof.
  induction calls as [ | c calls IH ]; [ reflexivity | exact IH ].
Qed.

Lemma run_cons (c : call) (calls : list call) (s : XYZAxis) :
  run (c :: calls) s = perform c s >>= run calls.
Proof.
  unfold run. cbn [fold_left bind].
  destruct (perform c s) as [s' | e s']; cbn [bind].
  - reflexivity.
  - apply run_raised.
Qed.

(** What every single call keeps is kept by every sequence of calls,
    whether it ends by returning or by raising. *)
Lemma run_invariant (P : XYZAxis -> Prop) :
  (forall c s, P s -> P (final (perform c s))) ->
  forall calls s, P s -> P (final (run calls s)).
Proof.
  intros Hstep calls.
  induction calls as [ | c calls IH ]; intros s Hs.
  - exact Hs.
  - rewrite run_cons. specialize (Hstep c s Hs).
    destruct (perform c s) as [s' | e s']; cbn [bind final] in *.
    + apply IH, Hstep.
    + exact Hstep.
Qed.

Lemma update_axis_final (s : XYZAxis) :
  exists tr, final (_update_axis s) = with_transform s tr.
Proof.
  destruct (update_axis_returns s) as (tr & Htr).
  exists tr. rewrite Htr. reflexivity.
Qed.

Lemma perform_same_setup (c : call) (s : XYZAxis) :
  same_setup s (final (perform c s)).
Proof.
  unfold same_setup.
  destruct c as [ev | ev | ev | | ]; cbn [perform].
  - unfold on_mouse_move.
    destruct (Nat.eqb (button ev) 1 && is_dragging ev).
    + destruct (update_axis_final s) as (tr & ->). repeat split.
    + repeat split.
  - repeat split.
  - unfold drag_visual_node. destruct (anchor s) as [[d a] | ]; repeat split.
  - repeat split.
  - unfold update_location, iadd_loc.
    destruct (loc s) as [d p | [ | ] p], (offset s) as [ | [ | ] o];
      cbn [bind];
      try (repeat split; fail);
      match goal with
      | |- context [ _update_axis ?s1 ] =>
          destruct (update_axis_returns s1) as (tr & Htr); rewrite Htr
      end;
      cbn [bind final]; try (repeat split; fail).
    all: destruct (center (highlight s)); repeat split.
Qed.

(** X15.  From the constructor on, no call changes the parent, the flags, the
    size, or the highlight's radius and visibility: whatever is called,
    and whether the calls return or raise, the highlight keeps the
    widget's size as its radius and stays hidden. *)
Theorem setup_never_changes (loc0 : seq2) (size0 : R) (visible0 seismic0 : bool)
    (parent0 : option ViewBox) (calls : list call) :
  let s :=
    final (run calls (final (__init__ loc0 size0 visible0 seismic0 parent0)))
  in
  parent s = parent0
  /\ interactive s = true
  /\ visible s = visible0
  /\ size s = size0
  /\ seismic_coord_system s = seismic0
  /\ radius (highlight s) = size0
  /\ ellipse_visible (highlight s) = false.
Proof.
  cbv zeta.
  set (s0 := final (__init__ loc0 size0 visible0 seismic0 parent0)).
  assert (H : same_setup s0 (final (run calls s0))).
  { apply (run_invariant (same_setup s0)).
    - intros c s Hs. pose proof (perform_same_setup c s) as Hc.
      unfold same_setup in *.
      destruct Hs as (H1 & H2 & H3 & H4 & H5 & H6 & H7).
      destruct Hc as (K1 & K2 & K3 & K4 & K5 & K6 & K7).
      rewrite K1, K2, K3, K4, K5, K6, K7. repeat split; assumption.
    - repeat split. }
  assert (H0 : parent s0 = parent0 /\ interactive s0 = true
               /\ visible s0 = visible0 /\ size s0 = size0
               /\ seismic_coord_system s0 = seismic0
               /\ radius (highlight s0) = size0
               /\ ellipse_visible (highlight s0) = false).
  { subst s0. unfold __init__.
    match goal with
    | |- context [ _update_axis ?s1 ] =>
        destruct (update_axis_final s1) as (tr & ->)
    end.
    repeat split. }
  destruct H as (H1 & H2 & H3 & H4 & H5 & H6 & H7).
  destruct H0 as (K1 & K2 & K3 & K4 & K5 & K6 & K7).
  rewrite H1, H2, H3, H4, H5, H6, H7. repeat split; assumption.
Qed.

Lemma perform_aligned (c : call) (s : XYZAxis) :
  aligned s -> aligned (final (perform c s)).
Proof.
  intros H.
  assert (Hup : forall s1, parent s1 = parent s ->
            (parent s = None -> transform s1 = Vispy.new) ->
            forall s2, (forall tr, aligned (with_transform s1 tr) ->
                          aligned (s2 tr)) ->
            forall k, (forall tr, k (with_transform s1 tr) = Returned (s2 tr)) ->
            aligned (final (_update_axis s1 >>= k))).
  { intros s1 Hp Hnone s2 Hs2 k Hk.
    destruct (parent s) as [vb | ] eqn:Hps.
    - rewrite (update_axis_attached s1 vb Hp). cbn [bind].
      rewrite Hk. cbn [final]. apply Hs2.
      unfold aligned. cbn [parent with_transform]. rewrite Hp. reflexivity.
    - rewrite (update_axis_detached_noop_aux s1 Hp). cbn [bind].
      replace s1 with (with_transform s1 (transform s1))
        by (destruct s1; reflexivity).
      rewrite Hk. cbn [final]. apply Hs2.
      unfold aligned. cbn [parent with_transform transform]. rewrite Hp.
      apply Hnone. reflexivity. }
  destruct c as [ev | ev | ev | | ]; cbn [perform].
  - unfold on_mouse_move.
    destruct (Nat.eqb (button ev) 1 && is_dragging ev); [ | exact H ].
    replace (_update_axis s) with (_update_axis s >>= Returned)
      by (unfold bind; destruct (_update_axis s); reflexivity).
    apply (Hup s eq_refl) with (s2 := fun tr => with_transform s tr).
    + intros Hn. unfold aligned in H. rewrite Hn in H. exact H.
    + intros tr Htr. exact Htr.
    + reflexivity.
  - exact H.
  - unfold drag_visual_node. destruct (anchor s) as [[d a] | ]; exact H.
  - exact H.
  - assert (Hnone : parent s = None -> transform s = Vispy.new).
    { intros Hn. unfold aligned in H. rewrite Hn in H. exact H. }
    unfold update_location, iadd_loc.
    destruct (loc s) as [d p | [ | ] p], (offset s) as [ | [ | ] o];
      cbn [bind];
      try exact H;
      match goal with
      | |- aligned (final (_update_axis ?s1 >>= _)) =>
          apply (Hup s1 eq_refl Hnone)
            with (s2 := fun tr =>
                          with_offset (with_anchor (with_transform s1 tr) None)
                            OffZero)
      end;
      try (intros tr Htr; exact Htr); try reflexivity.
Qed.

(** X16.  While the camera stays where it is, the transform is never stale:
    from the constructor on and after any calls, returning or raising, it
    is the alignment for the current location (the identity for a widget
    without a parent). *)
Theorem transform_stays_aligned (loc0 : seq2) (size0 : R)
    (visible0 seismic0 : bool) (parent0 : option ViewBox) (calls : list call) :
  aligned (final (run calls
                    (final (__init__ loc0 size0 visible0 seismic0 parent0)))).
Proof.
  apply (run_invariant aligned).
  - exact perform_aligned.
  - unfold __init__, aligned.
    destruct parent0 as [vb | ].
    + match goal with
      | |- context [ _update_axis ?s1 ] =>
          rewrite (update_axis_attached s1 vb eq_refl)
      end.
      reflexivity.
    + match goal with
      | |- context [ _update_axis ?s1 ] =>
          rewrite (update_axis_detached_noop_aux s1 eq_refl)
      end.
      reflexivity.
Qed.

Lemma perform_offset_needs_anchor (c : call) (s : XYZAxis) :
  (anchor s = None -> offset s = OffZero) ->
  anchor (final (perform c s)) = None ->
  offset (final (perform c s)) = OffZero.
Proof.
  intros H.
  destruct c as [ev | ev | ev | | ]; cbn [perform].
  - unfold on_mouse_move.
    destruct (Nat.eqb (button ev) 1 && is_dragging ev); [ | exact H ].
    destruct (update_axis_final s) as (tr & ->). exact H.
  - cbn. discriminate.
  - unfold drag_visual_node. destruct (anchor s) as [[d a] | ] eqn:Ha.
    + cbn. rewrite Ha. discriminate.
    + cbn [final]. intros _. apply H. reflexivity.
  - exact H.
  - unfold update_location, iadd_loc.
    destruct (loc s) as [d p | [ | ] p], (offset s) as [ | [ | ] o] eqn:Ho;
      cbn [bind];
      try (cbn [final]; intros Hn; rewrite Ho; exact (H Hn));
      match goal with
      | |- context [ _update_axis ?s1 ] =>
          destruct (update_axis_returns s1) as (tr & Htr); rewrite Htr
      end;
      cbn [bind final]; intros _; reflexivity.
Qed.

(** X17.  From the constructor on and after any calls, a widget without an
    anchor has its offset at the integer [0]: a pending offset exists
    only while an anchor is set. *)
Theorem offset_needs_anchor (loc0 : seq2) (size0 : R)
    (visible0 seismic0 : bool) (parent0 : option ViewBox) (calls : list call) :
  let s :=
    final (run calls (final (__init__ loc0 size0 visible0 seismic0 parent0)))
  in
  anchor s = None -> offset s = OffZero.
Proof.
  cbv zeta.
  apply (run_invariant (fun s => anchor s = None -> offset s = OffZero)).
  - exact perform_offset_needs_anchor.
  - unfold __init__.
    match goal with
    | |- context [ _update_axis ?s1 ] =>
        destruct (update_axis_final s1) as (tr & ->)
    end.
    reflexivity.
Qed.

Lemma offset_needs_anchor_default :
  anchor (final (run [SetAnchor (left_at 10 10); DragVisualNode (left_at 40 40);
                      ResetHighlight; UpdateLocation; DragVisualNode (left_at 0 0)]
                   (final (__init__ (PyTuple Int64 (60, 60)) 50 true true
                             (Some default_view))))) = None
  /\ offset (final (run [SetAnchor (left_at 10 10); DragVisualNode (left_at 40 40);
                         ResetHighlight; UpdateLocation;
                         DragVisualNode (left_at 0 0)]
                      (final (__init__ (PyTuple Int64 (60, 60)) 50 true true
                                (Some default_view))))) = OffZero.
Proof.
  split.
  - reflexivity.
  - apply (offset_needs_anchor (PyTuple Int64 (60, 60)) 50 true true
             (Some default_view)
             [SetAnchor (left_at 10 10); DragVisualNode (left_at 40 40);
              ResetHighlight; UpdateLocation; DragVisualNode (left_at 0 0)]).
    reflexivity.
Defined.


Lemma perform_keeps_dtype (d : dtype) (c : call) (s : XYZAxis) :
  (exists p, loc s = NdArray d p) ->
  exists q, loc (final (perform c s)) = NdArray d q.
Proof.
  intros [p Hp].
  destruct c as [ev | ev | ev | | ]; cbn [perform].
  - unfold on_mouse_move.
    destruct (Nat.eqb (button ev) 1 && is_dragging ev);
      [ destruct (update_axis_final s) as (tr & ->) | ];
      exists p; exact Hp.
  - exists p. exact Hp.
  - unfold drag_visual_node. destruct (anchor s) as [[da a] | ];
      exists p; exact Hp.
  - exists p. exact Hp.
  - unfold update_location, iadd_loc. rewrite Hp.
    destruct d, (offset s) as [ | [ | ] o]; cbn [bind];
      try (exists p; exact Hp);
      match goal with
      | |- context [ _update_axis ?s1 ] =>
          destruct (update_axis_returns s1) as (tr & Htr); rewrite Htr
      end;
      cbn [bind final]; eexists; reflexivity.
Qed.

(** X18.  Once the location is an array -- as the first returning release
    leaves it -- it stays an array of the same element type whatever
    calls are made, returning or raising; and when that type is float, a
    release never raises again. *)
Theorem array_loc_keeps_dtype (s : XYZAxis) (d : dtype) (p : vec2)
    (calls : list call) :
  loc s = NdArray d p ->
  (exists q, loc (final (run calls s)) = NdArray d q)
  /\ (d = Float64 ->
      exists s' q,
        update_location (final (run calls s)) = Returned s'
        /\ loc s' = NdArray Float64 q).
Proof.
  intros Hp.
  destruct (run_invariant (fun s => exists q, loc s = NdArray d q)
              (perform_keeps_dtype d) calls s (ex_intro _ p Hp)) as [q Hq].
  split; [ exists q; exact Hq | ].
  intros ->. unfold update_location, iadd_loc. rewrite Hq.
  destruct (offset (final (run calls s))) as [ | [ | ] o]; cbn [bind];
    match goal with
    | |- context [ _update_axis ?s1 ] =>
        destruct (update_axis_returns s1) as (tr & Htr); rewrite Htr
    end;
    cbn [bind]; eexists; eexists; split; reflexivity.
Qed.

Lemma array_loc_keeps_dtype_committed :
  (exists p, loc committed_axis = NdArray Int64 p)
  /\ exists q,
       loc (final (run [UpdateLocation; SetAnchor (left_at 1 2);
                        DragVisualNode (float_at 5 5); UpdateLocation;
                        ResetHighlight] committed_axis)) = NdArray Int64 q.
Proof.
  split; [ eexists; reflexivity | ].
  exact (proj1 (array_loc_keeps_dtype committed_axis Int64 _
                  [UpdateLocation; SetAnchor (left_at 1 2);
                   DragVisualNode (float_at 5 5); UpdateLocation;
                   ResetHighlight] eq_refl)).
Defined.

(** X13.  During a drag the highlight follows the pointer rigidly: after the
    press and any moves, its centre is the location displaced by what the
    pointer has travelled since the press, and it is drawn solid. *)
Theorem highlight_follows_pointer (s : XYZAxis) (press : MouseEvent)
    (moves : list MouseEvent) (last_move : MouseEvent) :
  exists s',
    set_anchor press s >>= drag_moves (moves ++ [last_move]) = Returned s'
    /\ highlight_center s' =
       vadd (elems (loc s)) (vsub (pos last_move) (pos press))
    /\ color (highlight s') = solid_yellow
    /\ loc s' = loc s.
Proof.
  unfold set_anchor. cbn [bind].
  set (s1 := with_anchor s _).
  destruct (drag_moves_frame moves s1 _ eq_refl)
    as (s2 & Hrun & Ha2 & Hl2 & _).
  unfold drag_moves in *. rewrite fold_left_app, Hrun. cbn [fold_left bind].
  rewrite (drag_visual_node_active last_move s2 _ Ha2).
  eexists. split; [ reflexivity | ].
  unfold highlight_center. cbn [highlight center elems color loc items].
  split; [ | split; [ reflexivity | exact Hl2 ] ].
  destruct (elems (loc s)) as [px py], (pos last_move) as [qx qy],
    (pos press) as [cx cy].
  unfold vadd, vsub; cbn [fst snd]. f_equal; ring.
Qed.

(** X14.  Cancelling undoes the feedback: on a widget whose highlight rests on
    the location in the transparent colour, a press, any moves and
    [reset_highlight] leave the highlight, the location and the transform
    exactly as they were before the press. *)
Theorem cancel_restores_highlight (s : XYZAxis) (press : MouseEvent)
    (moves : list MouseEvent) :
  center (highlight s) = CenterIsLoc ->
  color (highlight s) = transparent_yellow ->
  exists s',
    set_anchor press s >>= drag_moves moves >>= reset_highlight = Returned s'
    /\ highlight s' = highlight s
    /\ loc s' = loc s
    /\ transform s' = transform s.
Proof.
  intros Hc Hy. unfold set_anchor. cbn [bind].
  set (s1 := with_anchor s _).
  destruct (drag_moves_frame moves s1 _ eq_refl)
    as (s2 & Hrun & _ & Hl2 & _ & _ & _ & _ & _ & Ht2 & Hr2 & He2).
  rewrite Hrun. cbn [bind]. unfold reset_highlight.
  eexists. split; [ reflexivity | ].
  cbn [highlight loc transform with_highlight with_center with_color
       center radius color ellipse_visible].
  split; [ | split; [ exact Hl2 | exact Ht2 ] ].
  unfold with_color, with_center. cbn [center radius color ellipse_visible].
  rewrite Hr2, He2. subst s1. cbn [highlight with_anchor].
  destruct (highlight s) as [c r col v].
  cbn [center color radius ellipse_visible] in *. subst. reflexivity.
Qed.

Lemma cancel_restores_highlight_default :
  exists s',
    set_anchor (left_at 10 10) default_axis
      >>= drag_moves [left_at 20 30; left_at 40 40]
      >>= reset_highlight = Returned s'
    /\ highlight s' = highlight default_axis
    /\ loc s' = loc default_axis
    /\ transform s' = transform default_axis.
Proof.
  exact (cancel_restores_highlight default_axis (left_at 10 10)
           [left_at 20 30; left_at 40 40] eq_refl eq_refl).
Defined.

(** X19.  Whether a drag session commits is decided by element types
    alone.  When numpy can add the session's offset to the location --
    the location is a tuple or an array of floats, or the press and the
    last move are both at integer positions -- the session returns with
    the location displaced by exactly what the pointer travelled from
    the press to the last move, held in an array, and with the anchor
    and the offset cleared.  Otherwise the release raises numpy's
    UFuncTypeError: the location is where it was, and the anchor and the
    offset of the session are still set. *)
Theorem drag_session_commits_iff_castable (s : XYZAxis) (press : MouseEvent)
    (moves : list MouseEvent) (last_move : MouseEvent) :
  if castable (loc s) (session_dtype (loc s) press last_move)
  then
    exists s' d v,
      drag_session press (moves ++ [last_move]) s = Returned s'
      /\ loc s' = NdArray d v
      /\ v = vadd (elems (loc s)) (vsub (pos last_move) (pos press))
      /\ anchor s' = None
      /\ offset s' = OffZero
  else
    exists s' a d o,
      drag_session press (moves ++ [last_move]) s = Raised UFuncTypeError s'
      /\ loc s' = loc s
      /\ anchor s' = Some a
      /\ offset s' = OffArray d o.
Proof.
  destruct (castable (loc s) (session_dtype (loc s) press last_move)) eqn:Hc.
  - destruct (drag_session_returns s press moves last_move Hc)
      as (s' & Hrun & [v Hv] & Hloc & Ha & Ho).
    exists s'. eexists. exists v.
    split; [ exact Hrun | ].
    split; [ exact Hv | ].
    rewrite Hv in Hloc. cbn [elems] in Hloc.
    split; [ exact Hloc | split; assumption ].
  - destruct (drag_session_refused s press moves last_move Hc)
      as (s' & Hrun & Hloc & Ha & Ho).
    exists s'. eexists. eexists. eexists.
    split; [ exact Hrun | ].
    split; [ exact Hloc | split; [ exact Ha | exact Ho ] ].
Qed.

(** X20.  After a pointer move in an open session the highlight's centre
    is the location plus the pending offset, whatever the element types;
    and when numpy can add that offset to the location, the release that
    follows returns and sets the location to the centre shown. *)
Theorem castable_feedback_is_committed (ev : MouseEvent) (s : XYZAxis)
    (a : pylist) :
  anchor s = Some a ->
  exists s' d o,
    drag_visual_node ev s = Returned s'
    /\ offset s' = OffArray d o
    /\ highlight_center s' = vadd (elems (loc s')) o
    /\ o = vsub (highlight_center s') (elems (loc s'))
    /\ loc s' = loc s
    /\ (castable (loc s) d = true ->
        exists s'',
          update_location s' = Returned s''
          /\ elems (loc s'') = highlight_center s').
Proof.
  intros Ha.
  rewrite (drag_visual_node_active ev s a Ha).
  eexists. eexists. eexists. split; [ reflexivity | ].
  split; [ reflexivity | ].
  unfold highlight_center; cbn [highlight center loc elems].
  split; [ symmetry; apply vadd_vsub_cancel | ].
  split; [ reflexivity | ].
  split; [ reflexivity | ].
  intros Hc.
  match goal with
  | |- context [ update_location ?s1 ] =>
      destruct (update_location_pending s1 _ _ eq_refl Hc)
        as (s'' & Hrun & Hloc & _)
  end.
  exists s''. split; [ exact Hrun | ].
  rewrite Hloc. cbn [elems loc]. apply vadd_vsub_cancel.
Qed.

Lemma castable_feedback_is_committed_pressed :
  anchor pressed_axis = Some (PyList Int64 (vsub (10, 10) (60, 60)))
  /\ exists s' d o,
       drag_visual_node (float_at 40 40) pressed_axis = Returned s'
       /\ offset s' = OffArray d o
       /\ highlight_center s' = vadd (elems (loc s')) o
       /\ o = vsub (highlight_center s') (elems (loc s'))
       /\ loc s' = loc pressed_axis
       /\ (castable (loc pressed_axis) d = true ->
           exists s'',
             update_location s' = Returned s''
             /\ elems (loc s'') = highlight_center s').
Proof.
  split.
  - reflexivity.
  - exact (castable_feedback_is_committed (float_at 40 40) pressed_axis
             (PyList Int64 (vsub (10, 10) (60, 60))) eq_refl).
Defined.
